(** * DeskBuddy firmware signing: [scripts/sign_firmware.py]

    A shallow embedding of the signing script and of the Python library
    calls it is built from, followed by the properties of the signing
    protocol.

    - Python [bytes] values are [list byte]; a [str] is a [string] whose
      characters are code points 0..255 (code points from 128 on are the
      non-ASCII ones; [bytes.fromhex] rejects all of them alike).
    - [hashlib.sha256] is FIPS 180-4 on 32-bit words held in [Z], with the
      wrap-around of every addition written out.
    - [hmac.new(key, msg, hashlib.sha256).digest()] is RFC 2104, as in
      Python's [hmac] module.
    - The file system, the console, the entropy pool and the order of the
      library calls are explicit state, threaded by a small state and
      exception monad. *)

From Stdlib Require Import ZArith NArith List Ascii String Lia DecimalString DecimalNat.
From Stdlib Require Import Strings.Byte.
From stdpp Require Import base option list gmap strings.

Import ListNotations.

Abbreviation bytes := (list byte).

(** ** Bytes *)

Definition Z_of_byte (b : byte) : Z := Z.of_N (Byte.to_N b).

(** The byte whose value is [z mod 256]. *)
Definition byte_of_Z (z : Z) : byte :=
  match Byte.of_N (Z.to_N (z mod 256)) with
  | Some b => b
  | None => x00
  end.

Definition byte_xor (a b : byte) : byte :=
  byte_of_Z (Z.lxor (Z_of_byte a) (Z_of_byte b)).

(** [b"..."] literals with ASCII characters only. *)
Definition bytes_of_string (s : string) : bytes := String.list_byte_of_string s.

(** ** hashlib.sha256 (FIPS 180-4) *)

Module SHA256.
Local Open Scope Z_scope.

Definition wrap (x : Z) : Z := x mod 2 ^ 32.
Definition add32 (x y : Z) : Z := wrap (x + y).

Definition shr (n x : Z) : Z := Z.shiftr x n.
Definition rotr (n x : Z) : Z :=
  Z.lor (Z.shiftr x n) (wrap (Z.shiftl x (32 - n))).
Definition not32 (x : Z) : Z := Z.lxor x (2 ^ 32 - 1).

Definition Ch (x y z : Z) : Z := Z.lxor (Z.land x y) (Z.land (not32 x) z).
Definition Maj (x y z : Z) : Z :=
  Z.lxor (Z.lxor (Z.land x y) (Z.land x z)) (Z.land y z).
Definition Sigma0 (x : Z) : Z := Z.lxor (Z.lxor (rotr 2 x) (rotr 13 x)) (rotr 22 x).
Definition Sigma1 (x : Z) : Z := Z.lxor (Z.lxor (rotr 6 x) (rotr 11 x)) (rotr 25 x).
Definition sigma0 (x : Z) : Z := Z.lxor (Z.lxor (rotr 7 x) (rotr 18 x)) (shr 3 x).
Definition sigma1 (x : Z) : Z := Z.lxor (Z.lxor (rotr 17 x) (rotr 19 x)) (shr 10 x).

(** The constants are the first 32 bits of the fractional parts of the
    square roots (initial hash value) and cube roots (round constants) of
    the first primes: [floor (p^(1/k) * 2^32) mod 2^32], the root taken
    bit by bit. *)
Fixpoint iroot_bits (k : Z) (b : nat) (n r : Z) : Z :=
  match b with
  | O => r
  | S b' =>
      let c := r + 2 ^ Z.of_nat b' in
      iroot_bits k b' n (if c ^ k <=? n then c else r)
  end.

Definition frac_root32 (k p : Z) : Z :=
  wrap (iroot_bits k 40 (p * 2 ^ (32 * k)) 0).

Definition is_prime (n : Z) : bool :=
  forallb (fun d => negb (n mod d =? 0)) (map Z.of_nat (seq 2 (Z.to_nat n - 2))).

Definition primes : list Z :=
  Eval vm_compute in List.filter is_prime (map Z.of_nat (seq 2 310)).

Definition K256 : list Z := Eval vm_compute in map (frac_root32 3) primes.

(** The hash value: eight 32-bit words. *)
Definition hash : Type := (Z * Z * Z * Z * Z * Z * Z * Z)%type.

Definition H0 : hash :=
  Eval vm_compute in
    (frac_root32 2 2, frac_root32 2 3, frac_root32 2 5, frac_root32 2 7,
     frac_root32 2 11, frac_root32 2 13, frac_root32 2 17, frac_root32 2 19).

(** Big-endian words. *)
Definition be32 (w : Z) : bytes :=
  [byte_of_Z (Z.shiftr w 24); byte_of_Z (Z.shiftr w 16);
   byte_of_Z (Z.shiftr w 8); byte_of_Z w].

Definition be64 (w : Z) : bytes := be32 (Z.shiftr w 32) ++ be32 w.

Definition word_of_be (bs : bytes) : Z :=
  fold_left (fun acc b => acc * 256 + Z_of_byte b) bs 0.

(** The sixteen words of a 64-byte block. *)
Fixpoint block_words (n : nat) (bs : bytes) : list Z :=
  match n with
  | O => []
  | S n' => word_of_be (firstn 4 bs) :: block_words n' (skipn 4 bs)
  end.

(** Message schedule: [W_t] for [16 <= t], appended one word at a time. *)
Definition next_W (W : list Z) : Z :=
  let t := length W in
  add32 (add32 (add32 (sigma1 (nth (t - 2) W 0)) (nth (t - 7) W 0))
               (sigma0 (nth (t - 15) W 0)))
        (nth (t - 16) W 0).

Fixpoint extend_W (n : nat) (W : list Z) : list Z :=
  match n with
  | O => W
  | S n' => extend_W n' (W ++ [next_W W])
  end.

Definition schedule (block : bytes) : list Z := extend_W 48 (block_words 16 block).

Definition round (v : hash) (kw : Z * Z) : hash :=
  let '(a, b, c, d, e, f, g, h) := v in
  let '(k, w) := kw in
  let T1 := add32 (add32 (add32 (add32 h (Sigma1 e)) (Ch e f g)) k) w in
  let T2 := add32 (Sigma0 a) (Maj a b c) in
  (add32 T1 T2, a, b, c, add32 d T1, e, f, g).

Definition compress (H : hash) (block : bytes) : hash :=
  let '(a, b, c, d, e, f, g, h) := fold_left round (combine K256 (schedule block)) H in
  let '(h0, h1, h2, h3, h4, h5, h6, h7) := H in
  (add32 h0 a, add32 h1 b, add32 h2 c, add32 h3 d,
   add32 h4 e, add32 h5 f, add32 h6 g, add32 h7 h).

(** Padding: the bit 1, zero bits up to 56 mod 64 bytes, the bit length on
    64 bits. *)
Definition pad (msg : bytes) : bytes :=
  let len := Z.of_nat (length msg) in
  msg ++ [x80] ++ repeat x00 (Z.to_nat ((55 - len) mod 64)) ++ be64 (8 * len).

Fixpoint blocks (n : nat) (data : bytes) (H : hash) : hash :=
  match n with
  | O => H
  | S n' => blocks n' (skipn 64 data) (compress H (firstn 64 data))
  end.

Definition digest_of (H : hash) : bytes :=
  let '(h0, h1, h2, h3, h4, h5, h6, h7) := H in
  be32 h0 ++ be32 h1 ++ be32 h2 ++ be32 h3 ++
  be32 h4 ++ be32 h5 ++ be32 h6 ++ be32 h7.

(** [hashlib.sha256(msg).digest()] *)
Definition sha256 (msg : bytes) : bytes :=
  let data := pad msg in
  digest_of (blocks (length data / 64) data H0).

Definition block_size : nat := 64.
Definition digest_size : nat := 32.

End SHA256.

(** ** hmac.new(key, msg, hashlib.sha256).digest() *)

Module HMAC.

(** [hmac.HMAC._init_old]: a key longer than the block is hashed first, the
    key is then filled with zero bytes up to the block size ([ljust]), and
    the two pads go in front of the inner and the outer message. *)
Definition block_key (key : bytes) : bytes :=
  let key := if (SHA256.block_size <? length key)%nat then SHA256.sha256 key else key in
  key ++ repeat x00 (SHA256.block_size - length key).

Definition digest (key msg : bytes) : bytes :=
  let key := block_key key in
  let inner := SHA256.sha256 (map (byte_xor x36) key ++ msg) in
  SHA256.sha256 (map (byte_xor x5c) key ++ inner).

End HMAC.

(** ** Python built-ins used by the script *)

(** [Py_ISSPACE]: the ASCII whitespace characters (tab, line feed, vertical
    tab, form feed, carriage return, space). [bytes.fromhex] skips all of
    them since Python 3.7, and the space in every version. *)
Definition Py_ISSPACE (c : ascii) : bool :=
  let n := N_of_ascii c in
  ((9 <=? n) && (n <=? 13) || (n =? 32))%N.

(** [_PyLong_DigitValue]: the value of a character as a digit in bases up
    to 36, and 37 for every other character. *)
Definition PyLong_DigitValue (c : ascii) : Z :=
  let n := Z.of_N (N_of_ascii c) in
  if ((48 <=? n) && (n <=? 57))%Z then (n - 48)%Z
  else if ((97 <=? n) && (n <=? 122))%Z then (n - 87)%Z
  else if ((65 <=? n) && (n <=? 90))%Z then (n - 55)%Z
  else 37%Z.

Definition is_ascii (c : ascii) : bool := (N_of_ascii c <? 128)%N.

Fixpoint PyUnicode_IS_ASCII (s : string) : bool :=
  match s with
  | EmptyString => true
  | String c s' => is_ascii c && PyUnicode_IS_ASCII s'
  end.

(** The loop of [bytes.fromhex]: whitespace is skipped in front of a byte,
    never between its two digits; [None] is the [ValueError]. *)
Fixpoint fromhex_loop (s : string) : option bytes :=
  match s with
  | EmptyString => Some []
  | String c rest =>
      if Py_ISSPACE c then fromhex_loop rest
      else
        let top := PyLong_DigitValue c in
        if (16 <=? top)%Z then None
        else
          match rest with
          | EmptyString => None
          | String d rest' =>
              let bot := PyLong_DigitValue d in
              if (16 <=? bot)%Z then None
              else cons (byte_of_Z (top * 16 + bot)) <$> fromhex_loop rest'
          end
  end.

(** [bytes.fromhex(s)] *)
Definition fromhex (s : string) : option bytes :=
  if PyUnicode_IS_ASCII s then fromhex_loop s else None.

Definition hexdigit (n : Z) : ascii :=
  ascii_of_N (Z.to_N (if (n <? 10)%Z then 48 + n else 87 + n)%Z).

(** [bs.hex()] *)
Fixpoint hex (bs : bytes) : string :=
  match bs with
  | [] => EmptyString
  | b :: bs' =>
      String (hexdigit (Z_of_byte b / 16))
             (String (hexdigit (Z_of_byte b mod 16)) (hex bs'))
  end.

(** [str(n)] of a length, as an f-string formats it. *)
Definition str_of_nat (n : nat) : string := NilEmpty.string_of_uint (Nat.to_uint n).

(** [s.rfind(c)]: the last index of [c], or -1. *)
Fixpoint rfind_from (c : ascii) (s : string) (i acc : Z) : Z :=
  match s with
  | EmptyString => acc
  | String d s' => rfind_from c s' (i + 1)%Z (if Ascii.eqb d c then i else acc)
  end.

Definition rfind (c : ascii) (s : string) : Z := rfind_from c s 0%Z (-1)%Z.

(** [s[i:j]] for [0 <= i]. *)
Definition slice (s : string) (i j : Z) : string :=
  String.substring (Z.to_nat i) (Z.to_nat (j - i)) s.

Fixpoint all_dots (s : string) : bool :=
  match s with
  | EmptyString => true
  | String c s' => Ascii.eqb c "." && all_dots s'
  end.

(** [os.path.splitext] on POSIX ([genericpath._splitext] with separator
    [/]): the extension starts at the last dot of the last path component,
    unless only dots come before it in that component. *)
Definition splitext (p : string) : string * string :=
  let sepIndex := rfind "/" p in
  let dotIndex := rfind "." p in
  let len := Z.of_nat (String.length p) in
  if (sepIndex <? dotIndex)%Z && negb (all_dots (slice p (sepIndex + 1) dotIndex))
  then (slice p 0 dotIndex, slice p dotIndex len)
  else (p, EmptyString).

(** ** The world the script runs in *)

Inductive exn : Type :=
| ValueError (msg : string)
| OSError (path : string)
| NotImplementedError.

(** The library calls of a run, in program order. *)
Inductive event : Type :=
| EvFromhex                              (* bytes.fromhex(..) *)
| EvRead (path : string)                 (* open(path, 'rb') .. f.read() *)
| EvPrint (line : string)                (* print(line) *)
| EvHmac (key msg tag : bytes)           (* hmac.new(key, msg, sha256).digest() *)
| EvOpenW (path : string)                (* open(path, 'wb') *)
| EvWrite (path : string) (data : bytes) (* f.write(data) *)
| EvUrandom (n : nat).                   (* os.urandom(n) *)

(** [files]: the readable files and their contents; [wdenied]: the paths
    that cannot be opened for writing; [entropy]: the bytes the operating
    system's random source will deliver next; [trace]: the calls so far. *)
Record world : Type := World {
  files : gmap string bytes;
  wdenied : gset string;
  entropy : bytes;
  trace : list event
}.

Inductive result (A : Type) : Type :=
| Ok (a : A)
| Raise (e : exn).
Arguments Ok {A} a.
Arguments Raise {A} e.

Definition M (A : Type) : Type := world -> result A * world.

Definition ret {A} (a : A) : M A := fun w => (Ok a, w).
Definition raise {A} (e : exn) : M A := fun w => (Raise e, w).
Definition bind {A B} (m : M A) (k : A -> M B) : M B :=
  fun w => match m w with
           | (Ok a, w') => k a w'
           | (Raise e, w') => (Raise e, w')
           end.

Notation "x <- m ;; k" := (bind m (fun x => k))
  (at level 90, m at next level, right associativity).
Notation "m ;;; k" := (bind m (fun _ => k))
  (at level 90, right associativity).

(** [try: body / except ValueError: handler] *)
Definition try_except_ValueError {A} (body handler : M A) : M A :=
  fun w => match body w with
           | (Raise (ValueError _), w') => handler w'
           | r => r
           end.

Definition log (e : event) : M unit :=
  fun w => (Ok tt, World (files w) (wdenied w) (entropy w) (trace w ++ [e])).

Definition set_files (fs : gmap string bytes) : M unit :=
  fun w => (Ok tt, World fs (wdenied w) (entropy w) (trace w)).

Definition get {A} (f : world -> A) : M A := fun w => (Ok (f w), w).

Definition bytes_fromhex (s : string) : M bytes :=
  log EvFromhex ;;;
  match fromhex s with
  | Some bs => ret bs
  | None => raise (ValueError "non-hexadecimal number found in fromhex() arg")
  end.

(** [with open(path, 'rb') as f: f.read()] *)
Definition read_file (path : string) : M bytes :=
  log (EvRead path) ;;;
  fs <- get files ;;
  match fs !! path with
  | Some data => ret data
  | None => raise (OSError path)
  end.

Definition print (line : string) : M unit := log (EvPrint line).

Definition hmac_sha256_digest (key msg : bytes) : M bytes :=
  let tag := HMAC.digest key msg in
  log (EvHmac key msg tag) ;;; ret tag.

(** [open(path, 'wb')]: the file is created or truncated; the handle is the
    path. *)
Definition open_wb (path : string) : M string :=
  log (EvOpenW path) ;;;
  denied <- get wdenied ;;
  if decide (path ∈ denied) then raise (OSError path)
  else
    fs <- get files ;;
    set_files (<[path := []]> fs) ;;;
    ret path.

(** [f.write(data)] appends to the open file. *)
Definition write (f : string) (data : bytes) : M unit :=
  log (EvWrite f data) ;;;
  fs <- get files ;;
  set_files (alter (fun old => old ++ data) f fs).

(** [os.urandom(n)] *)
Definition urandom (n : nat) : M bytes :=
  log (EvUrandom n) ;;;
  pool <- get entropy ;;
  if (n <=? length pool)%nat
  then (fun w => (Ok (firstn n pool), World (files w) (wdenied w) (skipn n pool) (trace w)))
  else raise NotImplementedError.

(** ** The script *)

Definition sign_firmware (input_path key_hex : string) (output_path : option string)
  : M string :=
  (* Validate key *)
  (if negb (String.length key_hex =? 64)%nat
   then raise (ValueError ("Key must be 64 hex characters (32 bytes), got "
                           +:+ str_of_nat (String.length key_hex)))
   else ret tt) ;;;
  key <- try_except_ValueError
           (bytes_fromhex key_hex)
           (raise (ValueError "Key must be valid hexadecimal")) ;;
  (* Read firmware *)
  firmware <- read_file input_path ;;
  print ("Firmware size: " +:+ str_of_nat (length firmware) +:+ " bytes") ;;;
  (* Compute HMAC-SHA256 *)
  signature <- hmac_sha256_digest key firmware ;;
  print ("Signature: " +:+ hex signature) ;;;
  (* Determine output path *)
  let output_path :=
    match output_path with
    | None => let '(base, ext) := splitext input_path in base +:+ "_signed" +:+ ext
    | Some p => p
    end in
  (* Write signed firmware *)
  f <- open_wb output_path ;;
  write f firmware ;;;
  write f signature ;;;
  let total_size := (length firmware + length signature)%nat in
  print ("Signed firmware: " +:+ output_path +:+ " (" +:+ str_of_nat total_size
         +:+ " bytes)") ;;;
  ret output_path.

(** Generate a random 32-byte key *)
Definition generate_key : M string :=
  key <- urandom 32 ;;
  ret (hex key).

(** ** Vocabulary of the specification *)

(** The two key-validation errors are the two [ValueError]s of the script;
    the first carries the observed length in its message. *)
Definition InvalidKeyLength (n : nat) : exn :=
  ValueError ("Key must be 64 hex characters (32 bytes), got " +:+ str_of_nat n).
Definition InvalidKeyEncoding : exn :=
  ValueError "Key must be valid hexadecimal".

(** The path the signed firmware goes to. *)
Definition signed_path (input_path : string) (output_path : option string) : string :=
  match output_path with
  | None => let '(base, ext) := splitext input_path in base +:+ "_signed" +:+ ext
  | Some p => p
  end.

(** What a run leaves behind: the exception, or the contents of the file
    whose path it returned. *)
Definition envelope_of_run (r : result string * world) : result (option bytes) :=
  match r with
  | (Ok out, w') => Ok (files w' !! out)
  | (Raise e, _) => Raise e
  end.

Definition is_write_event (e : event) : bool :=
  match e with
  | EvOpenW _ | EvWrite _ _ => true
  | _ => false
  end.

Definition is_crypto_event (e : event) : bool :=
  match e with
  | EvHmac _ _ _ => true
  | _ => false
  end.

(** The hexadecimal digits: 0-9, a-f, A-F. *)
Definition is_hexdigit (c : ascii) : bool :=
  let n := N_of_ascii c in
  ((48 <=? n) && (n <=? 57) || (97 <=? n) && (n <=? 102) || (65 <=? n) && (n <=? 70))%N.

Definition is_lower_hexdigit (c : ascii) : bool :=
  let n := N_of_ascii c in
  ((48 <=? n) && (n <=? 57) || (97 <=? n) && (n <=? 102))%N.

Fixpoint string_forall (p : ascii -> bool) (s : string) : bool :=
  match s with
  | EmptyString => true
  | String c s' => p c && string_forall p s'
  end.

Fixpoint string_exists (p : ascii -> bool) (s : string) : bool :=
  match s with
  | EmptyString => false
  | String c s' => p c || string_exists p s'
  end.

Fixpoint string_count (p : ascii -> bool) (s : string) : nat :=
  match s with
  | EmptyString => O
  | String c s' => ((if p c then 1 else 0) + string_count p s')%nat
  end.

(** [c.lower()] on code points 0..255: the letters A-Z and the Latin-1
    capitals (192..222 without the multiplication sign) move up by 32. *)
Definition lower_char (c : ascii) : ascii :=
  let n := N_of_ascii c in
  if ((65 <=? n) && (n <=? 90) || (192 <=? n) && (n <=? 222) && negb (n =? 215))%N
  then ascii_of_N (n + 32)
  else c.

(** [s.lower()] *)
Fixpoint lower (s : string) : string :=
  match s with
  | EmptyString => EmptyString
  | String c s' => String (lower_char c) (lower s')
  end.

(** ** The verifier of the specification *)

Module Verifier.

Inductive error : Type :=
| InvalidKeyLength (n : nat)
| InvalidKeyEncoding
| EnvelopeTooShort
| SignatureInvalid.

Definition hex_value (c : ascii) : Z :=
  let n := Z.of_N (N_of_ascii c) in
  if (n <=? 57)%Z then (n - 48)%Z
  else if (n <=? 70)%Z then (n - 55)%Z
  else (n - 87)%Z.

(** Modelled from the spec: strict hexadecimal decoding for the key
    validation of section 4.2, which the verifier shares (two digits per
    byte, nothing skipped, truncated or padded). *)
Fixpoint decode_hex (s : string) : option bytes :=
  match s with
  | EmptyString => Some []
  | String c EmptyString => None
  | String c (String d rest) =>
      if is_hexdigit c && is_hexdigit d
      then cons (byte_of_Z (16 * hex_value c + hex_value d)) <$> decode_hex rest
      else None
  end.

(** Modelled from the spec: the key validation of section 4.2, in its
    order: (a) the length, (b) the characters. *)
Definition validate_key (key_hex : string) : error + bytes :=
  if negb (String.length key_hex =? 64)%nat
  then inl (InvalidKeyLength (String.length key_hex))
  else match decode_hex key_hex with
       | Some key => inr key
       | None => inl InvalidKeyEncoding
       end.

(** Modelled from the spec: the equality check of section 4.3, which looks
    at every byte whatever the earlier ones were: the differences are
    or-ed together and tested once. *)
Definition compare_digest (a b : bytes) : bool :=
  (length a =? length b)%nat &&
  (fold_left (fun acc xy => Z.lor acc (Z.lxor (Z_of_byte (fst xy)) (Z_of_byte (snd xy))))
             (combine a b) 0 =? 0)%Z.

(** Modelled from the spec: [verify] of section 4.3, the counterpart of
    [sign_firmware] that the script does not contain. *)
Definition verify (envelope : bytes) (key_hex : string) : error + bytes :=
  match validate_key key_hex with
  | inl e => inl e
  | inr key =>
      if (length envelope <? 32)%nat then inl EnvelopeTooShort
      else
        let n := (length envelope - 32)%nat in
        let candidate_payload := firstn n envelope in
        let received_tag := skipn n envelope in
        let expected_tag := HMAC.digest key candidate_payload in
        if compare_digest expected_tag received_tag
        then inr candidate_payload
        else inl SignatureInvalid
  end.

End Verifier.

(** ** Events and lines of a run *)

Definition add_events (evs : list event) (w : world) : world :=
  World (files w) (wdenied w) (entropy w) (trace w ++ evs).

Definition firmware_size_line (firmware : bytes) : string :=
  "Firmware size: " +:+ str_of_nat (length firmware) +:+ " bytes".
Definition signature_line (signature : bytes) : string :=
  "Signature: " +:+ hex signature.
Definition signed_line (out : string) (firmware signature : bytes) : string :=
  "Signed firmware: " +:+ out +:+ " (" +:+
  str_of_nat (length firmware + length signature) +:+ " bytes)".

Ltac run_script :=
  unfold sign_firmware, try_except_ValueError, bytes_fromhex, read_file, print,
    hmac_sha256_digest, open_wb, write, log, get, set_files, ret, raise, bind;
  cbn [files wdenied entropy trace].

Ltac run_step := cbn [Nat.eqb negb files wdenied entropy trace].

(** The outcome of a run whose input file holds [payload] and whose output
    path can be written: a function of the payload and the key string. *)
Definition sign_outcome (payload : bytes) (key_hex : string) : result (option bytes) :=
  if negb (String.length key_hex =? 64)%nat
  then Raise (InvalidKeyLength (String.length key_hex))
  else match fromhex key_hex with
       | Some key => Ok (Some (payload ++ HMAC.digest key payload))
       | None => Raise InvalidKeyEncoding
       end.

(** ** Sample inputs *)

Definition demo_payload : bytes := bytes_of_string "DeskBuddyFW".

Definition zero_key_hex : string :=
  "0000000000000000000000000000000000000000000000000000000000000000".

Definition upper_key_hex : string :=
  "0123456789ABCDEF0123456789abcdef0123456789ABCDEF0123456789abcdef".

(** 62 hexadecimal digits and two spaces. *)
Definition padded_key_hex : string :=
  "0123456789abcdef0123456789abcdef0123456789abcdef0123456789abcd  ".

(** 64 characters, the last one not a hexadecimal digit. *)
Definition bad_key_hex : string :=
  "0123456789abcdef0123456789abcdef0123456789abcdef0123456789abcdeg".

Definition demo_world : world :=
  World {["fw.bin" := demo_payload]} ∅
        (map (fun n => byte_of_Z (Z.of_nat n)) (seq 100 40)) [].

(** The same firmware under another name, with other files around and a
    history. *)
Definition other_world : world :=
  World (<["build/app.img" := demo_payload]> {["notes.txt" := bytes_of_string "x"]})
        {["/etc/passwd"]} [] [EvPrint "earlier"].

(** ** Tactics *)

Ltac by_cases_on_ascii c :=
  destruct c as [[] [] [] [] [] [] [] []]; vm_compute; congruence.

(** ** The command line *)

(** The module docstring, [__doc__]. *)
Definition doc : string := "
Sign DeskBuddy firmware with HMAC-SHA256

Usage:
    python sign_firmware.py <firmware.bin> <key_hex> [output.bin]

Arguments:
    firmware.bin  - Input firmware binary
    key_hex       - 32-byte signing key as hex string (64 characters)
    output.bin    - Output signed firmware (default: firmware_signed.bin)

Example:
    python sign_firmware.py firmware.bin 0123456789abcdef0123456789abcdef0123456789abcdef0123456789abcdef

The signed firmware has the HMAC-SHA256 signature (32 bytes) appended to the end.
".

Definition nl : string := String "010"%char EmptyString.

(** How [main] ends: it returns, and the interpreter exits with status 0,
    or it calls [sys.exit]. *)
Inductive exit_status : Type :=
| Returned
| Exited (code : Z).

Definition exit_code (s : exit_status) : Z :=
  match s with
  | Returned => 0%Z
  | Exited code => code
  end.

(** [sys.exit(code)] raises [SystemExit], which is no [Exception]: no
    handler of the script catches it, and every call is the last statement
    of its branch, so it settles how [main] ends. *)
Definition sys_exit (code : Z) : M exit_status := ret (Exited code).

(** [try: body / except Exception as e: handler] *)
Definition try_except_Exception {A} (body : M A) (handler : exn -> M A) : M A :=
  fun w => match body w with
           | (Raise e, w') => handler e w'
           | r => r
           end.

Section CommandLine.

(** The text of the [OSError] for a path that could not be opened, as the
    operating system words it. *)
Variable strerror : string -> string.

(** [str(e)], as the f-string of [main] formats the exception. *)
Definition str_of_exn (e : exn) : string :=
  match e with
  | ValueError msg => msg
  | OSError path => strerror path
  | NotImplementedError => EmptyString
  end.

(** [main()], run as a script: [sys.argv] is the program name followed by
    the arguments. *)
Definition main (prog : string) (args : list string) : M exit_status :=
  let argv := prog :: args in
  if (length argv <? 2)%nat then
    print doc ;;;
    print (nl +:+ "To generate a new key:") ;;;
    print ("  python " +:+ nth 0 argv EmptyString +:+ " --generate-key") ;;;
    sys_exit 1
  else if String.eqb (nth 1 argv EmptyString) "--generate-key" then
    key <- generate_key ;;
    print ("Generated signing key: " +:+ key) ;;;
    print (nl +:+ "Store this key securely. Set it on device via API or compile it in.") ;;;
    sys_exit 0
  else if (length argv <? 3)%nat then
    print "Error: Missing key argument" ;;;
    print doc ;;;
    sys_exit 1
  else
    let input_path := nth 1 argv EmptyString in
    let key_hex := nth 2 argv EmptyString in
    let output_path :=
      if (3 <? length argv)%nat then Some (nth 3 argv EmptyString) else None in
    try_except_Exception
      (sign_firmware input_path key_hex output_path ;;; ret Returned)
      (fun e => print ("Error: " +:+ str_of_exn e) ;;; sys_exit 1).

End CommandLine.

Definition is_print_event (e : event) : bool :=
  match e with
  | EvPrint _ => true
  | _ => false
  end.

(** A sample wording of the operating system's errors. *)
Definition demo_strerror (path : string) : string :=
  "[Errno 2] No such file or directory: '" +:+ path +:+ "'".

(** * Properties *)

(** ** Reference vectors for the library models *)

Example sha256_abc :
  hex (SHA256.sha256 (bytes_of_string "abc"))
  = "ba7816bf8f01cfea414140de5dae2223b00361a396177a9cb410ff61f20015ad".
Proof. vm_compute. reflexivity. Qed.

Example sha256_empty :
  hex (SHA256.sha256 [])
  = "e3b0c44298fc1c149afbf4c8996fb92427ae41e4649b934ca495991b7852b855".
Proof. vm_compute. reflexivity. Qed.

Example sha256_two_blocks :
  hex (SHA256.sha256
         (bytes_of_string "abcdbcdecdefdefgefghfghighijhijkijkljklmklmnlmnomnopnopq"))
  = "248d6a61d20638b8e5c026930c3e6039a33ce45964ff2167f6ecedd419db06c1".
Proof. vm_compute. reflexivity. Qed.

(** RFC 4231, test cases 1, 2 and 6. *)
Example hmac_rfc4231_1 :
  hex (HMAC.digest (repeat x0b 20) (bytes_of_string "Hi There"))
  = "b0344c61d8db38535ca8afceaf0bf12b881dc200c9833da726e9376c2e32cff7".
Proof. vm_compute. reflexivity. Qed.

Example hmac_rfc4231_2 :
  hex (HMAC.digest (bytes_of_string "Jefe") (bytes_of_string "what do ya want for nothing?"))
  = "5bdcc146bf60754e6a042426089575c75a003f089d2739839dec58b964ec3843".
Proof. vm_compute. reflexivity. Qed.

Example hmac_rfc4231_6 :
  hex (HMAC.digest (repeat xaa 131)
         (bytes_of_string "Test Using Larger Than Block-Size Key - Hash Key First"))
  = "60e431591ee0b67f0d8a26aacbf5b77f8e0bc6213728c5140546040f0ee37f54".
Proof. vm_compute. reflexivity. Qed.

(** The round constants are those of FIPS 180-4, section 4.2.2. *)
Example K256_fips :
  Some (flat_map SHA256.be32 SHA256.K256)
  = fromhex ("428a2f98 71374491 b5c0fbcf e9b5dba5 3956c25b 59f111f1 923f82a4 ab1c5ed5 "
         +:+ "d807aa98 12835b01 243185be 550c7dc3 72be5d74 80deb1fe 9bdc06a7 c19bf174 "
         +:+ "e49b69c1 efbe4786 0fc19dc6 240ca1cc 2de92c6f 4a7484aa 5cb0a9dc 76f988da "
         +:+ "983e5152 a831c66d b00327c8 bf597fc7 c6e00bf3 d5a79147 06ca6351 14292967 "
         +:+ "27b70a85 2e1b2138 4d2c6dfc 53380d13 650a7354 766a0abb 81c2c92e 92722c85 "
         +:+ "a2bfe8a1 a81a664b c24b8b70 c76c51a3 d192e819 d6990624 f40e3585 106aa070 "
         +:+ "19a4c116 1e376c08 2748774c 34b0bcb5 391c0cb3 4ed8aa4a 5b9cca4f 682e6ff3 "
         +:+ "748f82ee 78a5636f 84c87814 8cc70208 90befffa a4506ceb bef9a3f7 c67178f2").
Proof. vm_compute. reflexivity. Qed.

Example H0_fips :
  hex (SHA256.digest_of SHA256.H0)
  = "6a09e667bb67ae853c6ef372a54ff53a510e527f9b05688c1f83d9ab5be0cd19".
Proof. vm_compute. reflexivity. Qed.

Example fromhex_examples :
  map fromhex ["0 0"; " 00"; "00 11"; "0"; "0g"; "AbCd"]
  = [None; Some [x00]; Some [x00; x11]; None; None; Some [xab; xcd]].
Proof. reflexivity. Qed.

Example splitext_examples :
  map splitext ["a/b.bin"; "fw"; ".bashrc"; "a.b/c"; "a/.x.y"; "..."; "a..b"; "fw.tar.gz"]
  = [("a/b", ".bin"); ("fw", EmptyString); (".bashrc", EmptyString);
     ("a.b/c", EmptyString); ("a/.x", ".y"); ("...", EmptyString); ("a.", ".b");
     ("fw.tar", ".gz")].
Proof. reflexivity. Qed.

(** ** Digest sizes *)

Lemma length_digest_of (H : SHA256.hash) : length (SHA256.digest_of H) = 32%nat.
Proof. destruct H as [[[[[[[h0 h1] h2] h3] h4] h5] h6] h7]. reflexivity. Qed.

Lemma length_sha256 (msg : bytes) : length (SHA256.sha256 msg) = SHA256.digest_size.
Proof. unfold SHA256.sha256. apply length_digest_of. Qed.

Lemma length_hmac (key msg : bytes) : length (HMAC.digest key msg) = 32%nat.
Proof. unfold HMAC.digest. apply length_sha256. Qed.

(** ** The runs of [sign_firmware] *)

Section Runs.
Variables (input_path key_hex : string) (output_path : option string) (w : world).

Lemma run_bad_length :
  String.length key_hex ≠ 64%nat →
  sign_firmware input_path key_hex output_path w
  = (Raise (InvalidKeyLength (String.length key_hex)), w).
Proof.
  intros Hlen. run_script.
  destruct (Nat.eqb_spec (String.length key_hex) 64) as [E|_]; [contradiction|].
  reflexivity.
Qed.

Lemma run_bad_encoding :
  String.length key_hex = 64%nat →
  fromhex key_hex = None →
  sign_firmware input_path key_hex output_path w
  = (Raise InvalidKeyEncoding, add_events [EvFromhex] w).
Proof.
  intros Hlen Hhex. run_script. rewrite Hlen, Hhex. reflexivity.
Qed.

Lemma run_missing_input (key : bytes) :
  String.length key_hex = 64%nat →
  fromhex key_hex = Some key →
  files w !! input_path = None →
  sign_firmware input_path key_hex output_path w
  = (Raise (OSError input_path), add_events [EvFromhex; EvRead input_path] w).
Proof.
  intros Hlen Hhex Hin. run_script. rewrite Hlen, Hhex. run_step.
  rewrite Hin. unfold add_events. rewrite <- !app_assoc. reflexivity.
Qed.

Lemma run_denied (key firmware : bytes) :
  String.length key_hex = 64%nat →
  fromhex key_hex = Some key →
  files w !! input_path = Some firmware →
  signed_path input_path output_path ∈ wdenied w →
  let signature := HMAC.digest key firmware in
  let out := signed_path input_path output_path in
  sign_firmware input_path key_hex output_path w
  = (Raise (OSError out),
     add_events [EvFromhex; EvRead input_path; EvPrint (firmware_size_line firmware);
                 EvHmac key firmware signature; EvPrint (signature_line signature);
                 EvOpenW out] w).
Proof.
  intros Hlen Hhex Hin Hout signature out. run_script. rewrite Hlen, Hhex. run_step.
  rewrite Hin. run_step. fold (signed_path input_path output_path). fold out.
  destruct (decide (out ∈ wdenied w)) as [_|N]; [|contradiction].
  unfold add_events. rewrite <- !app_assoc. reflexivity.
Qed.

Lemma run_ok (key firmware : bytes) :
  String.length key_hex = 64%nat →
  fromhex key_hex = Some key →
  files w !! input_path = Some firmware →
  signed_path input_path output_path ∉ wdenied w →
  let signature := HMAC.digest key firmware in
  let out := signed_path input_path output_path in
  sign_firmware input_path key_hex output_path w
  = (Ok out,
     World (<[out := firmware ++ signature]> (files w)) (wdenied w) (entropy w)
           (trace w ++
            [EvFromhex; EvRead input_path; EvPrint (firmware_size_line firmware);
             EvHmac key firmware signature; EvPrint (signature_line signature);
             EvOpenW out; EvWrite out firmware; EvWrite out signature;
             EvPrint (signed_line out firmware signature)])).
Proof.
  intros Hlen Hhex Hin Hout signature out. run_script. rewrite Hlen, Hhex. run_step.
  rewrite Hin. run_step. fold (signed_path input_path output_path). fold out.
  destruct (decide (out ∈ wdenied w)) as [Y|_]; [contradiction|]. run_step.
  rewrite !alter_insert_eq. rewrite <- !app_assoc. reflexivity.
Qed.

(** Every run ends in one of the five ways above. *)
Lemma run_cases :
  let r := sign_firmware input_path key_hex output_path w in
  let out := signed_path input_path output_path in
  (String.length key_hex ≠ 64%nat ∧ r = (Raise (InvalidKeyLength (String.length key_hex)), w))
  ∨ (String.length key_hex = 64%nat ∧ fromhex key_hex = None ∧
     r = (Raise InvalidKeyEncoding, add_events [EvFromhex] w))
  ∨ (∃ key, String.length key_hex = 64%nat ∧ fromhex key_hex = Some key ∧
     ((files w !! input_path = None ∧ fst r = Raise (OSError input_path))
      ∨ (∃ firmware, files w !! input_path = Some firmware ∧
         ((out ∈ wdenied w ∧ fst r = Raise (OSError out))
          ∨ ((out ∉ wdenied w) ∧
             r = (Ok out,
                  World (<[out := firmware ++ HMAC.digest key firmware]> (files w))
                    (wdenied w) (entropy w)
                    (trace w ++
                     [EvFromhex; EvRead input_path; EvPrint (firmware_size_line firmware);
                      EvHmac key firmware (HMAC.digest key firmware);
                      EvPrint (signature_line (HMAC.digest key firmware));
                      EvOpenW out; EvWrite out firmware;
                      EvWrite out (HMAC.digest key firmware);
                      EvPrint (signed_line out firmware (HMAC.digest key firmware))]))))))).
Proof.
  intros r out. subst r.
  destruct (decide (String.length key_hex = 64%nat)) as [Hlen|Hlen].
  2: { left. split; [done|]. by apply run_bad_length. }
  right. destruct (fromhex key_hex) as [key|] eqn:Hhex.
  2: { left. repeat split; try done. by apply run_bad_encoding. }
  right. exists key. repeat split; try done.
  destruct (files w !! input_path) as [firmware|] eqn:Hin.
  2: { left. split; [done|]. by rewrite (run_missing_input key). }
  right. exists firmware. split; [done|].
  destruct (decide (out ∈ wdenied w)) as [Hout|Hout].
  - left. split; [done|]. by rewrite (run_denied key firmware).
  - right. split; [done|]. by apply run_ok.
Qed.
End Runs.

(** ** Characters and hexadecimal strings *)

Lemma hexdigit_digit_value (c : ascii) :
  is_hexdigit c = (PyLong_DigitValue c <? 16)%Z.
Proof. by_cases_on_ascii c. Qed.

Lemma hexdigit_not_space (c : ascii) : is_hexdigit c = true → Py_ISSPACE c = false.
Proof. by_cases_on_ascii c. Qed.

Lemma hexdigit_is_ascii (c : ascii) : is_hexdigit c = true → is_ascii c = true.
Proof. by_cases_on_ascii c. Qed.

Lemma hexdigit_hex_value (c : ascii) :
  is_hexdigit c = true → Verifier.hex_value c = PyLong_DigitValue c.
Proof. by_cases_on_ascii c. Qed.

Lemma space_not_hexdigit (c : ascii) : Py_ISSPACE c = true → is_hexdigit c = false.
Proof. by_cases_on_ascii c. Qed.

Lemma lower_char_space (c : ascii) : Py_ISSPACE (lower_char c) = Py_ISSPACE c.
Proof. by_cases_on_ascii c. Qed.

Lemma lower_char_digit_value (c : ascii) :
  PyLong_DigitValue (lower_char c) = PyLong_DigitValue c.
Proof. by_cases_on_ascii c. Qed.

Lemma lower_char_is_ascii (c : ascii) : is_ascii (lower_char c) = is_ascii c.
Proof. by_cases_on_ascii c. Qed.

(** Induction that follows [fromhex_loop]: one or two characters at a time. *)
Lemma string_two_step_ind (P : string → Prop) :
  P EmptyString →
  (∀ c, P (String c EmptyString)) →
  (∀ c d s, P s → P (String d s) → P (String c (String d s))) →
  ∀ s, P s.
Proof.
  intros Hnil Hone Hstep s.
  assert (P s ∧ ∀ c, P (String c s)) as [H _]; [|exact H].
  induction s as [|d s [IH1 IH2]]; split; auto.
Qed.

Lemma lower_is_ascii (s : string) : PyUnicode_IS_ASCII (lower s) = PyUnicode_IS_ASCII s.
Proof.
  induction s as [|c s IH]; [reflexivity|].
  cbn [lower PyUnicode_IS_ASCII]. by rewrite lower_char_is_ascii, IH.
Qed.

Lemma fromhex_loop_lower (s : string) : fromhex_loop (lower s) = fromhex_loop s.
Proof.
  induction s as [|c|c d s IH1 IH2] using string_two_step_ind; [reflexivity| |].
  - cbn [lower fromhex_loop].
    by rewrite lower_char_space, lower_char_digit_value.
  - change (lower (String c (String d s)))
      with (String (lower_char c) (lower (String d s))).
    cbn [fromhex_loop]. rewrite lower_char_space, lower_char_digit_value.
    destruct (Py_ISSPACE c); [exact IH2|].
    destruct (16 <=? PyLong_DigitValue c)%Z; [reflexivity|].
    cbn [lower]. rewrite lower_char_digit_value, IH1. reflexivity.
Qed.

(** Decoding does not depend on the case of the letters. *)
Lemma fromhex_lower (s : string) : fromhex (lower s) = fromhex s.
Proof. unfold fromhex. by rewrite lower_is_ascii, fromhex_loop_lower. Qed.

Lemma length_lower (s : string) : String.length (lower s) = String.length s.
Proof. induction s as [|c s IH]; [reflexivity|]. cbn. by rewrite IH. Qed.

(** On strings of hexadecimal digits [bytes.fromhex] is the strict decoder. *)
Lemma hex_string_is_ascii (s : string) :
  string_forall is_hexdigit s = true → PyUnicode_IS_ASCII s = true.
Proof.
  induction s as [|c s IH]; [reflexivity|]. cbn.
  intros [Hc Hs]%andb_true_iff. by rewrite (hexdigit_is_ascii c Hc), IH.
Qed.

Lemma fromhex_loop_decode_hex (s : string) :
  string_forall is_hexdigit s = true → fromhex_loop s = Verifier.decode_hex s.
Proof.
  induction s as [|c|c d s IH1 _] using string_two_step_ind; [reflexivity| |].
  - cbn. intros Hc. rewrite andb_true_r in Hc.
    rewrite (hexdigit_not_space c Hc).
    by destruct (16 <=? PyLong_DigitValue c)%Z.
  - cbn [string_forall]. intros [Hc [Hd Hs]%andb_true_iff]%andb_true_iff.
    cbn [fromhex_loop Verifier.decode_hex].
    rewrite (hexdigit_not_space c Hc), Hc, Hd. cbn [andb].
    rewrite hexdigit_digit_value in Hc, Hd.
    apply Z.ltb_lt in Hc, Hd.
    destruct (Z.leb_spec 16 (PyLong_DigitValue c)); [lia|].
    destruct (Z.leb_spec 16 (PyLong_DigitValue d)); [lia|].
    rewrite IH1 by done.
    rewrite !hexdigit_hex_value by (rewrite hexdigit_digit_value; by apply Z.ltb_lt).
    by rewrite (Z.mul_comm 16).
Qed.

Lemma fromhex_decode_hex (s : string) :
  string_forall is_hexdigit s = true → fromhex s = Verifier.decode_hex s.
Proof.
  intros H. unfold fromhex. rewrite (hex_string_is_ascii s H).
  by apply fromhex_loop_decode_hex.
Qed.

(** A string of [2 * n] hexadecimal digits decodes to [n] bytes. *)
Lemma decode_hex_total (n : nat) (s : string) :
  String.length s = (2 * n)%nat →
  string_forall is_hexdigit s = true →
  ∃ key, Verifier.decode_hex s = Some key ∧ length key = n.
Proof.
  revert s. induction n as [|n IH]; intros s Hlen Hhex.
  - destruct s; [|discriminate]. by exists [].
  - destruct s as [|c [|d s]]; cbn in Hlen; try lia.
    cbn [string_forall] in Hhex.
    apply andb_true_iff in Hhex as [Hc [Hd Hs]%andb_true_iff].
    destruct (IH s) as (key & Hkey & Hk); [lia|done|].
    cbn [Verifier.decode_hex]. rewrite Hc, Hd, Hkey. cbn.
    eexists. split; [reflexivity|]. cbn. by rewrite Hk.
Qed.

Lemma hex_key_accepted (key_hex : string) :
  String.length key_hex = 64%nat →
  string_forall is_hexdigit key_hex = true →
  ∃ key, fromhex key_hex = Some key ∧ Verifier.decode_hex key_hex = Some key
         ∧ length key = 32%nat.
Proof.
  intros Hlen Hhex.
  destruct (decode_hex_total 32 key_hex Hlen Hhex) as (key & Hkey & Hk).
  exists key. by rewrite fromhex_decode_hex.
Qed.

(** ** [bytes.hex] and back *)

Lemma hex_byte_loop (b : byte) (s : string) :
  fromhex_loop (String (hexdigit (Z_of_byte b / 16))
                  (String (hexdigit (Z_of_byte b mod 16)) s))
  = cons b <$> fromhex_loop s.
Proof. destruct b; reflexivity. Qed.

Lemma hex_byte_lower (b : byte) :
  is_lower_hexdigit (hexdigit (Z_of_byte b / 16)) = true
  ∧ is_lower_hexdigit (hexdigit (Z_of_byte b mod 16)) = true.
Proof. destruct b; split; reflexivity. Qed.

Lemma lower_hexdigit_hexdigit (c : ascii) :
  is_lower_hexdigit c = true → is_hexdigit c = true.
Proof. by_cases_on_ascii c. Qed.

Lemma length_hex (bs : bytes) : String.length (hex bs) = (2 * length bs)%nat.
Proof. induction bs as [|b bs IH]; [reflexivity|]. cbn [hex String.length length]. lia. Qed.

Lemma hex_lower_digits (bs : bytes) : string_forall is_lower_hexdigit (hex bs) = true.
Proof.
  induction bs as [|b bs IH]; [reflexivity|]. cbn [hex string_forall].
  destruct (hex_byte_lower b) as [-> ->]. by rewrite IH.
Qed.

Lemma string_forall_impl (p q : ascii → bool) (s : string) :
  (∀ c, p c = true → q c = true) →
  string_forall p s = true → string_forall q s = true.
Proof.
  intros Hpq. induction s as [|c s IH]; [done|]. cbn.
  intros [Hc Hs]%andb_true_iff. by rewrite (Hpq c Hc), IH.
Qed.

Lemma fromhex_hex (bs : bytes) : fromhex (hex bs) = Some bs.
Proof.
  unfold fromhex. rewrite hex_string_is_ascii.
  - induction bs as [|b bs IH]; [reflexivity|].
    cbn [hex]. by rewrite hex_byte_loop, IH.
  - apply (string_forall_impl is_lower_hexdigit); [apply lower_hexdigit_hexdigit|].
    apply hex_lower_digits.
Qed.

(** ** Key validation and the exceptions of a run *)

Lemma str_of_nat_inj (n m : nat) : str_of_nat n = str_of_nat m → n = m.
Proof.
  unfold str_of_nat. intros H.
  apply (f_equal NilEmpty.uint_of_string) in H.
  rewrite !NilEmpty.usu in H.
  rewrite <- (DecimalNat.Unsigned.of_to n), <- (DecimalNat.Unsigned.of_to m).
  congruence.
Qed.

Lemma append_inj_r (p a b : string) : p +:+ a = p +:+ b → a = b.
Proof. induction p as [|c p IH]; cbn; [done|]. intros [= H]. auto. Qed.

(** The length error determines the length it reports. *)
Lemma InvalidKeyLength_inj (n m : nat) : InvalidKeyLength n = InvalidKeyLength m → n = m.
Proof.
  unfold InvalidKeyLength. intros [= H]. by apply append_inj_r, str_of_nat_inj in H.
Qed.

Lemma key_errors_differ (n : nat) : InvalidKeyLength n ≠ InvalidKeyEncoding.
Proof. unfold InvalidKeyLength, InvalidKeyEncoding. intros H. discriminate H. Qed.

(** Only the key validation raises [ValueError]. *)
Lemma run_ValueError input_path key_hex output_path w msg :
  fst (sign_firmware input_path key_hex output_path w) = Raise (ValueError msg) →
  (String.length key_hex ≠ 64%nat ∧
   sign_firmware input_path key_hex output_path w
   = (Raise (InvalidKeyLength (String.length key_hex)), w))
  ∨ (String.length key_hex = 64%nat ∧ fromhex key_hex = None ∧
     sign_firmware input_path key_hex output_path w
     = (Raise InvalidKeyEncoding, add_events [EvFromhex] w)).
Proof.
  intros H.
  destruct (run_cases input_path key_hex output_path w)
    as [[? ?]|[(? & ? & ?)|(key & ? & ? & [[? E]|(fw & ? & [[? E]|[? E]])])]];
    [by left|by right|..]; rewrite E in H; discriminate.
Qed.

Lemma run_accepted input_path key_hex output_path w key msg :
  String.length key_hex = 64%nat →
  fromhex key_hex = Some key →
  fst (sign_firmware input_path key_hex output_path w) ≠ Raise (ValueError msg).
Proof.
  intros Hlen Hhex H. apply run_ValueError in H as [[? _]|(_ & ? & _)]; congruence.
Qed.

(** ** The tag comparison of the verifier *)

Lemma Z_of_byte_inj (a b : byte) : Z_of_byte a = Z_of_byte b → a = b.
Proof.
  unfold Z_of_byte. intros H%N2Z.inj.
  assert (Some a = Some b) as E; [|by injection E].
  by rewrite <- (Byte.of_to_N a), <- (Byte.of_to_N b), H.
Qed.

Lemma compare_fold_zero (a b : bytes) (acc : Z) :
  length a = length b →
  fold_left (fun acc xy => Z.lor acc (Z.lxor (Z_of_byte (fst xy)) (Z_of_byte (snd xy))))
    (combine a b) acc = 0%Z →
  acc = 0%Z ∧ a = b.
Proof.
  revert b acc. induction a as [|x a IH]; intros [|y b] acc Hlen H; try discriminate.
  - done.
  - cbn in Hlen, H. destruct (IH b _ ltac:(lia) H) as [Hacc ->].
    apply Z.lor_eq_0_iff in Hacc as [-> Hxy].
    apply Z.lxor_eq, Z_of_byte_inj in Hxy as ->. done.
Qed.

Lemma compare_digest_refl (a : bytes) : Verifier.compare_digest a a = true.
Proof.
  unfold Verifier.compare_digest. rewrite Nat.eqb_refl. cbn [andb].
  apply Z.eqb_eq. induction a as [|x a IH]; [reflexivity|].
  cbn. by rewrite Z.lxor_nilpotent.
Qed.

(** The comparison is equality of the two tags. *)
Lemma compare_digest_eq (a b : bytes) : Verifier.compare_digest a b = true ↔ a = b.
Proof.
  split; [|intros ->; apply compare_digest_refl].
  unfold Verifier.compare_digest.
  intros [Hlen%Nat.eqb_eq H%Z.eqb_eq]%andb_true_iff.
  by destruct (compare_fold_zero a b 0%Z Hlen H).
Qed.

(** Verification of [payload ++ tag] under a strictly valid key. *)
Lemma verify_signed (key_hex : string) (key payload : bytes) :
  String.length key_hex = 64%nat →
  Verifier.decode_hex key_hex = Some key →
  Verifier.verify (payload ++ HMAC.digest key payload) key_hex = inr payload.
Proof.
  intros Hlen Hkey. unfold Verifier.verify, Verifier.validate_key.
  rewrite Hlen, Hkey. cbn [Nat.eqb negb].
  rewrite length_app, length_hmac.
  destruct (Nat.ltb_spec (length payload + 32) 32) as [?|_]; [lia|].
  replace (length payload + 32 - 32)%nat with (length payload) by lia.
  rewrite take_app_length, drop_app_length, compare_digest_refl. reflexivity.
Qed.

(** ** Runs with working input and output *)

Lemma envelope_of_run_outcome input_path key_hex output_path w payload :
  files w !! input_path = Some payload →
  signed_path input_path output_path ∉ wdenied w →
  envelope_of_run (sign_firmware input_path key_hex output_path w)
  = sign_outcome payload key_hex.
Proof.
  intros Hin Hout. unfold sign_outcome.
  destruct (Nat.eqb_spec (String.length key_hex) 64) as [Hlen|Hlen]; cbn [negb].
  - destruct (fromhex key_hex) as [key|] eqn:Hhex.
    + rewrite (run_ok _ _ _ _ key payload) by done.
      cbn [envelope_of_run files]. by rewrite lookup_insert_eq.
    + by rewrite run_bad_encoding.
  - by rewrite run_bad_length.
Qed.

(** The script looks at the key string through its length and its decoding
    only. *)
Lemma sign_firmware_key_ext input_path k1 k2 output_path w :
  String.length k1 = String.length k2 →
  fromhex k1 = fromhex k2 →
  sign_firmware input_path k1 output_path w = sign_firmware input_path k2 output_path w.
Proof.
  intros Hlen Hhex. unfold sign_firmware, bytes_fromhex. by rewrite Hlen, Hhex.
Qed.

Lemma generate_key_run (w : world) :
  generate_key w
  = if (32 <=? length (entropy w))%nat
    then (Ok (hex (take 32 (entropy w))),
          World (files w) (wdenied w) (drop 32 (entropy w)) (trace w ++ [EvUrandom 32]))
    else (Raise NotImplementedError, add_events [EvUrandom 32] w).
Proof.
  unfold generate_key, urandom, bind, log, get, ret, raise.
  cbn [files wdenied entropy trace].
  by destruct (32 <=? length (entropy w))%nat.
Qed.

Lemma demo_world_writable (p : string) : p ∉ wdenied demo_world.
Proof. cbn. set_solver. Qed.

Lemma other_world_writable : "out.bin" ∉ wdenied other_world.
Proof. cbn. set_solver. Qed.

(** ** The signed envelope *)

(** C1: for every payload (the contents of the input file, of any length)
    and every accepted key string, the file written by [sign_firmware] is
    the payload followed by the 32-byte tag HMAC-SHA256(decoded key,
    payload): its length is the payload's plus 32 and its first bytes are
    the payload. *)
Theorem sign_envelope (w : world) (input_path key_hex : string)
    (output_path : option string) (key payload : bytes) :
  String.length key_hex = 64%nat →
  fromhex key_hex = Some key →
  files w !! input_path = Some payload →
  signed_path input_path output_path ∉ wdenied w →
  ∃ out w' envelope,
    sign_firmware input_path key_hex output_path w = (Ok out, w') ∧
    files w' !! out = Some envelope ∧
    envelope = payload ++ HMAC.digest key payload ∧
    length (HMAC.digest key payload) = 32%nat ∧
    length envelope = (length payload + 32)%nat ∧
    take (length payload) envelope = payload.
Proof.
  intros Hlen Hhex Hin Hout.
  eexists _, _, _. split; [by apply (run_ok _ _ _ _ key payload)|].
  cbn [files]. rewrite lookup_insert_eq. split; [reflexivity|]. split; [reflexivity|].
  rewrite length_app, length_hmac, take_app_length. done.
Qed.

Lemma sign_envelope_witness :
  ∃ out w' envelope,
    sign_firmware "fw.bin" zero_key_hex None demo_world = (Ok out, w') ∧
    files w' !! out = Some envelope ∧
    envelope = demo_payload ++ HMAC.digest (repeat x00 32) demo_payload ∧
    length (HMAC.digest (repeat x00 32) demo_payload) = 32%nat ∧
    length envelope = (length demo_payload + 32)%nat ∧
    take (length demo_payload) envelope = demo_payload.
Proof.
  apply (sign_envelope demo_world "fw.bin" zero_key_hex None (repeat x00 32) demo_payload).
  - reflexivity.
  - reflexivity.
  - reflexivity.
  - apply demo_world_writable.
Defined.

(** The empty payload is signed like any other. *)
Example sign_empty_payload :
  envelope_of_run
    (sign_firmware "empty.bin" zero_key_hex (Some "out.bin")
       (World {["empty.bin" := []]} ∅ [] []))
  = Ok (Some (HMAC.digest (repeat x00 32) [])).
Proof. vm_compute. reflexivity. Qed.

(** ** Key validation *)

(** C2: the script computes a tag with a key that is not 32 bytes long: the
    64-character key string made of 62 hexadecimal digits and two spaces
    passes both checks, [bytes.fromhex] skips the spaces, and the HMAC is
    computed (and the envelope written) with the 31 bytes that remain. *)
Theorem sign_with_short_key :
  String.length padded_key_hex = 64%nat ∧
  ∃ key w',
    fromhex padded_key_hex = Some key ∧
    length key = 31%nat ∧
    sign_firmware "fw.bin" padded_key_hex None demo_world = (Ok "fw_signed.bin", w') ∧
    files w' !! "fw_signed.bin" = Some (demo_payload ++ HMAC.digest key demo_payload) ∧
    EvHmac key demo_payload (HMAC.digest key demo_payload) ∈ trace w'.
Proof.
  split; [reflexivity|].
  assert (∃ key, fromhex padded_key_hex = Some key ∧ length key = 31%nat)
    as (key & Hkey & Hlen) by (eexists; split; reflexivity).
  exists key. eexists. split; [exact Hkey|]. split; [exact Hlen|].
  split; [apply (run_ok "fw.bin" padded_key_hex None demo_world key demo_payload);
          [reflexivity|exact Hkey|reflexivity|apply demo_world_writable]|].
  cbn [files trace]. split; [apply lookup_insert_eq|].
  apply list_elem_of_In. cbn. tauto.
Qed.

(** C3: a 64-character key string with characters that are not hexadecimal
    digits is accepted when those characters are ASCII whitespace in front
    of or behind a byte: the run with 62 digits and two spaces raises no
    error and writes the signed file. *)
Theorem sign_accepts_whitespace_key :
  String.length padded_key_hex = 64%nat ∧
  string_exists (fun c => negb (is_hexdigit c)) padded_key_hex = true ∧
  fst (sign_firmware "fw.bin" padded_key_hex None demo_world) = Ok "fw_signed.bin" ∧
  is_Some (files (snd (sign_firmware "fw.bin" padded_key_hex None demo_world))
           !! "fw_signed.bin").
Proof.
  split; [reflexivity|]. split; [reflexivity|].
  assert (∃ key, fromhex padded_key_hex = Some key) as [key Hkey]
    by (eexists; reflexivity).
  rewrite (run_ok "fw.bin" padded_key_hex None demo_world key demo_payload);
    [|reflexivity|exact Hkey|reflexivity|apply demo_world_writable].
  split; [reflexivity|]. cbn [snd files]. rewrite lookup_insert_eq. by eexists.
Qed.

(** A character that is neither a hexadecimal digit nor ASCII whitespace
    makes the decoding fail wherever it stands. *)
Lemma fromhex_loop_rejects (s : string) :
  string_exists (fun c => negb (is_hexdigit c) && negb (Py_ISSPACE c)) s = true →
  fromhex_loop s = None.
Proof.
  induction s as [|c|c d s IH1 IH2] using string_two_step_ind.
  - discriminate.
  - cbn. rewrite orb_false_r, hexdigit_digit_value.
    destruct (Py_ISSPACE c); [by rewrite andb_false_r|].
    destruct (Z.leb_spec 16 (PyLong_DigitValue c)); [done|].
    destruct (Z.ltb_spec (PyLong_DigitValue c) 16); [done|lia].
  - change (string_exists ?p (String c (String d s)))
      with (p c || string_exists p (String d s)).
    cbn [fromhex_loop]. cbv beta.
    destruct (Py_ISSPACE c) eqn:Hc.
    { rewrite andb_false_r. exact IH2. }
    rewrite hexdigit_digit_value.
    destruct (Z.leb_spec 16 (PyLong_DigitValue c)); [done|].
    destruct (Z.ltb_spec (PyLong_DigitValue c) 16); [|lia].
    cbn [negb andb orb string_exists]. rewrite hexdigit_digit_value.
    destruct (Z.leb_spec 16 (PyLong_DigitValue d)); [done|].
    destruct (Z.ltb_spec (PyLong_DigitValue d) 16); [|lia].
    cbn [negb andb orb]. intros Hs. by rewrite (IH1 Hs).
Qed.

Example sign_rejects_g :
  fst (sign_firmware "fw.bin" bad_key_hex None demo_world) = Raise InvalidKeyEncoding.
Proof. by rewrite run_bad_encoding. Qed.

(** C4: for every key string whose length is not 64, whatever its
    characters, [sign_firmware] raises the length error carrying that
    length and leaves the world as it was: nothing has been decoded, read,
    computed, printed or written. *)
Theorem sign_rejects_bad_length (w : world) (input_path key_hex : string)
    (output_path : option string) :
  String.length key_hex ≠ 64%nat →
  sign_firmware input_path key_hex output_path w
  = (Raise (InvalidKeyLength (String.length key_hex)), w)
  ∧ trace (snd (sign_firmware input_path key_hex output_path w)) = trace w
  ∧ files (snd (sign_firmware input_path key_hex output_path w)) = files w.
Proof.
  intros Hlen.
  assert (sign_firmware input_path key_hex output_path w
          = (Raise (InvalidKeyLength (String.length key_hex)), w)) as E.
  { unfold sign_firmware, bind, raise.
    destruct (Nat.eqb_spec (String.length key_hex) 64) as [Heq|_]; [contradiction|].
    reflexivity. }
  rewrite E. repeat split.
Qed.

Lemma sign_rejects_bad_length_witness :
  String.length "0g" ≠ 64%nat ∧
  sign_firmware "fw.bin" "0g" None demo_world = (Raise (InvalidKeyLength 2), demo_world).
Proof.
  split; [discriminate|].
  apply (proj1 (sign_rejects_bad_length demo_world "fw.bin" "0g" None ltac:(discriminate))).
Defined.

Example sign_rejects_63_and_65 :
  fst (sign_firmware "fw.bin" (String "0" zero_key_hex) None demo_world)
  = Raise (InvalidKeyLength 65) ∧
  fst (sign_firmware "fw.bin" (String.substring 1 63 zero_key_hex) None demo_world)
  = Raise (InvalidKeyLength 63).
Proof. split; by rewrite run_bad_length. Qed.

(** ** Signing and verifying *)

(** C5: for every payload and every valid key (a string of 64 hexadecimal
    digits, that is 32 bytes), verifying with the same key the envelope
    that [sign_firmware] wrote accepts and returns exactly the payload. *)
Theorem verify_sign_roundtrip (w : world) (input_path key_hex : string)
    (output_path : option string) (payload : bytes) :
  String.length key_hex = 64%nat →
  string_forall is_hexdigit key_hex = true →
  files w !! input_path = Some payload →
  signed_path input_path output_path ∉ wdenied w →
  ∃ out w' envelope,
    sign_firmware input_path key_hex output_path w = (Ok out, w') ∧
    files w' !! out = Some envelope ∧
    Verifier.verify envelope key_hex = inr payload.
Proof.
  intros Hlen Hhex Hin Hout.
  destruct (hex_key_accepted key_hex Hlen Hhex) as (key & Hkey & Hdec & _).
  eexists _, _, _. split; [by apply (run_ok _ _ _ _ key payload)|].
  cbn [files]. rewrite lookup_insert_eq. split; [reflexivity|].
  by apply verify_signed.
Qed.

Lemma verify_sign_roundtrip_witness :
  ∃ out w' envelope,
    sign_firmware "fw.bin" upper_key_hex None demo_world = (Ok out, w') ∧
    files w' !! out = Some envelope ∧
    Verifier.verify envelope upper_key_hex = inr demo_payload.
Proof.
  apply (verify_sign_roundtrip demo_world "fw.bin" upper_key_hex None demo_payload).
  - reflexivity.
  - reflexivity.
  - reflexivity.
  - apply demo_world_writable.
Defined.

(** The verifier is not a rubber stamp: a flipped tag byte and a short
    envelope are refused. *)
Example verify_rejects :
  Verifier.verify (demo_payload ++ x00 :: tail (HMAC.digest (repeat x00 32) demo_payload))
    zero_key_hex = inl Verifier.SignatureInvalid
  ∧ Verifier.verify (repeat x00 31) zero_key_hex = inl Verifier.EnvelopeTooShort.
Proof. split; vm_compute; reflexivity. Qed.

(** ** Determinism *)

(** C6: the outcome of signing (the envelope written, or the key error) is
    the same for every two runs on the same payload and key string,
    whatever the paths, the other files, the entropy pool and the history
    of the two worlds: nothing but the key and the payload enters the
    tag. *)
Theorem sign_deterministic (w1 w2 : world) (in1 in2 key_hex : string)
    (out1 out2 : option string) (payload : bytes) :
  files w1 !! in1 = Some payload →
  files w2 !! in2 = Some payload →
  signed_path in1 out1 ∉ wdenied w1 →
  signed_path in2 out2 ∉ wdenied w2 →
  envelope_of_run (sign_firmware in1 key_hex out1 w1)
  = envelope_of_run (sign_firmware in2 key_hex out2 w2).
Proof.
  intros H1 H2 D1 D2.
  rewrite (envelope_of_run_outcome in1 key_hex out1 w1 payload H1 D1).
  by rewrite (envelope_of_run_outcome in2 key_hex out2 w2 payload H2 D2).
Qed.

Lemma sign_deterministic_witness :
  envelope_of_run (sign_firmware "fw.bin" upper_key_hex None demo_world)
  = envelope_of_run (sign_firmware "build/app.img" upper_key_hex (Some "out.bin") other_world).
Proof.
  apply (sign_deterministic demo_world other_world "fw.bin" "build/app.img"
           upper_key_hex None (Some "out.bin") demo_payload).
  - reflexivity.
  - reflexivity.
  - apply demo_world_writable.
  - apply other_world_writable.
Defined.

(** Signing again in the world the first run left gives the same envelope. *)
Example sign_twice :
  let r1 := sign_firmware "fw.bin" zero_key_hex None demo_world in
  let r2 := sign_firmware "fw.bin" zero_key_hex (Some "again.bin") (snd r1) in
  envelope_of_run r1 = envelope_of_run r2 ∧ is_Some (files (snd r2) !! "again.bin").
Proof. vm_compute. split; [reflexivity|by eexists]. Qed.

(** ** Key generation *)

(** C7: every successful call of [generate_key] returns 64 lowercase
    hexadecimal characters, the encoding of the 32 bytes that [os.urandom]
    delivered; the string decodes to those 32 bytes and [sign_firmware]
    never answers it with a key-validation error. *)
Theorem generate_key_usable (w w' : world) (key_hex : string) :
  generate_key w = (Ok key_hex, w') →
  String.length key_hex = 64%nat ∧
  string_forall is_lower_hexdigit key_hex = true ∧
  ∃ key,
    key = take 32 (entropy w) ∧
    length key = 32%nat ∧
    entropy w' = drop 32 (entropy w) ∧
    key_hex = hex key ∧
    fromhex key_hex = Some key ∧
    ∀ input_path output_path w2 msg,
      fst (sign_firmware input_path key_hex output_path w2) ≠ Raise (ValueError msg).
Proof.
  rewrite generate_key_run.
  destruct (Nat.leb_spec 32 (length (entropy w))) as [Hpool|_]; [|discriminate].
  intros [= <- <-].
  assert (length (take 32 (entropy w)) = 32%nat) as Hlen by (rewrite length_take; lia).
  assert (String.length (hex (take 32 (entropy w))) = 64%nat) as Hlen64
    by (rewrite length_hex, Hlen; reflexivity).
  split; [exact Hlen64|]. split; [apply hex_lower_digits|].
  exists (take 32 (entropy w)). repeat split; try done.
  - apply fromhex_hex.
  - intros input_path output_path w2 msg.
    apply (run_accepted _ _ _ _ (take 32 (entropy w))); [exact Hlen64|apply fromhex_hex].
Qed.

Lemma generate_key_usable_witness :
  ∃ key_hex w',
    generate_key demo_world = (Ok key_hex, w') ∧
    String.length key_hex = 64%nat ∧
    string_forall is_lower_hexdigit key_hex = true ∧
    fromhex key_hex = Some (take 32 (entropy demo_world)).
Proof.
  eexists _, _. split; [reflexivity|].
  destruct (generate_key_usable demo_world _ _ eq_refl)
    as (Hlen & Hlow & key & -> & _ & _ & _ & Hdec & _).
  split; [exact Hlen|]. split; [exact Hlow|]. exact Hdec.
Defined.

(** Without 32 bytes of entropy the call fails and returns no key. *)
Lemma generate_key_no_entropy (w : world) :
  (length (entropy w) < 32)%nat → fst (generate_key w) = Raise NotImplementedError.
Proof.
  intros H. rewrite generate_key_run.
  by destruct (Nat.leb_spec 32 (length (entropy w))); [lia|].
Qed.

(** ** The pinned vector *)

(** C8: with the key string of 64 zero characters and the 11-byte payload
    [DeskBuddyFW], the last 32 bytes of the envelope are the HMAC-SHA256
    value of that key and message,
    fef82c879f38262c92b6676ac6fe621dd9578b6f7715864a15486c222d997cba. *)
Theorem sign_pinned_vector (w : world) (input_path : string) (output_path : option string) :
  files w !! input_path = Some (bytes_of_string "DeskBuddyFW") →
  signed_path input_path output_path ∉ wdenied w →
  ∃ out w' envelope,
    sign_firmware input_path zero_key_hex output_path w = (Ok out, w') ∧
    files w' !! out = Some envelope ∧
    drop (length envelope - 32) envelope
    = HMAC.digest (repeat x00 32) (bytes_of_string "DeskBuddyFW") ∧
    hex (drop (length envelope - 32) envelope)
    = "fef82c879f38262c92b6676ac6fe621dd9578b6f7715864a15486c222d997cba".
Proof.
  intros Hin Hout.
  eexists _, _, _.
  split; [by apply (run_ok _ _ _ _ (repeat x00 32) (bytes_of_string "DeskBuddyFW"))|].
  cbn [files]. rewrite lookup_insert_eq. split; [reflexivity|].
  rewrite length_app, length_hmac.
  replace (length (bytes_of_string "DeskBuddyFW") + 32 - 32)%nat
    with (length (bytes_of_string "DeskBuddyFW")) by lia.
  rewrite drop_app_length. split; [reflexivity|]. vm_compute. reflexivity.
Qed.

Lemma sign_pinned_vector_witness :
  ∃ out w' envelope,
    sign_firmware "fw.bin" zero_key_hex (Some "signed.bin") demo_world = (Ok out, w') ∧
    files w' !! out = Some envelope ∧
    drop (length envelope - 32) envelope
    = HMAC.digest (repeat x00 32) (bytes_of_string "DeskBuddyFW") ∧
    hex (drop (length envelope - 32) envelope)
    = "fef82c879f38262c92b6676ac6fe621dd9578b6f7715864a15486c222d997cba".
Proof.
  apply (sign_pinned_vector demo_world "fw.bin" (Some "signed.bin")).
  - reflexivity.
  - apply demo_world_writable.
Defined.

(** ** Ordering of the effects *)

(** C9: when [sign_firmware] fails the key validation (either error) the
    files are what they were and the run has opened and written nothing
    (nor called the HMAC);
    in every successful run the trace shows the HMAC call, returning the
    complete 32-byte tag, with no opening or writing before it: the output
    file is opened and the payload and the tag are written after it. *)
Theorem sign_no_partial_write (w : world) (input_path key_hex : string)
    (output_path : option string) :
  let r := sign_firmware input_path key_hex output_path w in
  (∀ e, fst r = Raise e →
        e = InvalidKeyLength (String.length key_hex) ∨ e = InvalidKeyEncoding →
        files (snd r) = files w ∧
        ∃ evs, trace (snd r) = trace w ++ evs ∧
               forallb (fun ev => negb (is_write_event ev)) evs = true ∧
               forallb (fun ev => negb (is_crypto_event ev)) evs = true)
  ∧ (∀ out, fst r = Ok out →
        ∃ key payload pre line1 line2,
          let tag := HMAC.digest key payload in
          trace (snd r)
          = trace w ++ pre ++
            [EvHmac key payload tag; EvPrint line1; EvOpenW out;
             EvWrite out payload; EvWrite out tag; EvPrint line2] ∧
          forallb (fun ev => negb (is_write_event ev)) pre = true ∧
          length tag = 32%nat ∧
          files (snd r) !! out = Some (payload ++ tag)).
Proof.
  intros r. subst r. split.
  - intros e He Hkind.
    assert (∃ msg, e = ValueError msg) as [msg ->]
      by (destruct Hkind as [-> | ->]; eexists; reflexivity).
    apply run_ValueError in He as [[_ ->]|(_ & _ & ->)]; cbn [snd files trace add_events].
    + split; [reflexivity|]. exists []. by rewrite app_nil_r.
    + split; [reflexivity|]. by exists [EvFromhex].
  - intros out Hok.
    destruct (run_cases input_path key_hex output_path w)
      as [[_ E]|[(_ & _ & E)|(key & _ & _ & [[_ E]|(fw & _ & [[_ E]|[_ E]])])]];
      rewrite E in Hok; try discriminate.
    injection Hok as <-. rewrite E. cbn [snd files trace].
    exists key, fw, [EvFromhex; EvRead input_path; EvPrint (firmware_size_line fw)].
    eexists _, _. cbn zeta. split; [reflexivity|]. split; [reflexivity|].
    split; [apply length_hmac|]. apply lookup_insert_eq.
Qed.

Lemma sign_no_partial_write_witness :
  (files (snd (sign_firmware "fw.bin" bad_key_hex None demo_world)) = files demo_world)
  ∧ (∃ key payload pre line1 line2,
       trace (snd (sign_firmware "fw.bin" zero_key_hex None demo_world))
       = trace demo_world ++ pre ++
         [EvHmac key payload (HMAC.digest key payload); EvPrint line1;
          EvOpenW "fw_signed.bin"; EvWrite "fw_signed.bin" payload;
          EvWrite "fw_signed.bin" (HMAC.digest key payload); EvPrint line2]
       ∧ forallb (fun ev => negb (is_write_event ev)) pre = true).
Proof.
  split.
  - apply (proj1 (sign_no_partial_write demo_world "fw.bin" bad_key_hex None)
             InvalidKeyEncoding).
    + vm_compute. reflexivity.
    + right. reflexivity.
  - destruct (proj2 (sign_no_partial_write demo_world "fw.bin" zero_key_hex None)
                "fw_signed.bin")
      as (key & payload & pre & line1 & line2 & Htrace & Hpre & _).
    + vm_compute. reflexivity.
    + exists key, payload, pre, line1, line2. split; [exact Htrace|exact Hpre].
Defined.

(** ** Upper-case keys *)

(** C10: every string of 64 hexadecimal digits is accepted whatever the
    case of its letters, and the run with it is the run with its
    lower-cased form: same result, same files, same trace. *)
Theorem sign_case_insensitive (w : world) (input_path key_hex : string)
    (output_path : option string) :
  String.length key_hex = 64%nat →
  string_forall is_hexdigit key_hex = true →
  (∃ key, fromhex key_hex = Some key ∧ fromhex (lower key_hex) = Some key
          ∧ length key = 32%nat)
  ∧ (∀ msg, fst (sign_firmware input_path key_hex output_path w) ≠ Raise (ValueError msg))
  ∧ sign_firmware input_path key_hex output_path w
    = sign_firmware input_path (lower key_hex) output_path w.
Proof.
  intros Hlen Hhex.
  destruct (hex_key_accepted key_hex Hlen Hhex) as (key & Hkey & _ & Hk).
  split; [|split].
  - exists key. by rewrite fromhex_lower.
  - intros msg. by apply (run_accepted _ _ _ _ key).
  - apply sign_firmware_key_ext; [by rewrite length_lower|by rewrite fromhex_lower].
Qed.

Lemma sign_case_insensitive_witness :
  lower upper_key_hex = "0123456789abcdef0123456789abcdef0123456789abcdef0123456789abcdef"
  ∧ envelope_of_run (sign_firmware "fw.bin" upper_key_hex None demo_world)
    = envelope_of_run (sign_firmware "fw.bin" (lower upper_key_hex) None demo_world)
  ∧ ∃ envelope,
      envelope_of_run (sign_firmware "fw.bin" upper_key_hex None demo_world)
      = Ok (Some envelope).
Proof.
  split; [reflexivity|].
  destruct (sign_case_insensitive demo_world "fw.bin" upper_key_hex None)
    as (_ & _ & Heq); [reflexivity|reflexivity|].
  split; [by rewrite Heq|].
  eexists. vm_compute. reflexivity.
Defined.

(** ** How far the key check reaches *)

Lemma fromhex_loop_length (s : string) (k : bytes) :
  fromhex_loop s = Some k →
  String.length s = (2 * length k + string_count Py_ISSPACE s)%nat
  ∧ string_forall (fun c => is_hexdigit c || Py_ISSPACE c) s = true.
Proof.
  revert k. induction s as [|c|c d s IH1 IH2] using string_two_step_ind; intros k.
  - intros [= <-]. done.
  - cbn [fromhex_loop]. destruct (Py_ISSPACE c) eqn:Hc.
    + intros [= <-]. cbn. by rewrite Hc, orb_true_r.
    + by destruct (16 <=? PyLong_DigitValue c)%Z.
  - cbn [fromhex_loop]. destruct (Py_ISSPACE c) eqn:Hc.
    + intros [Hlen Hall]%IH2.
      change (String.length (String c (String d s)))
        with (S (String.length (String d s))).
      change (string_count Py_ISSPACE (String c (String d s)))
        with ((if Py_ISSPACE c then 1 else 0) + string_count Py_ISSPACE (String d s))%nat.
      change (string_forall ?p (String c (String d s)))
        with (p c && string_forall p (String d s)).
      cbv beta. rewrite Hc, orb_true_r, Hall, Hlen. split; [lia|done].
    + destruct (Z.leb_spec 16 (PyLong_DigitValue c)) as [|Hct]; [done|].
      destruct (Z.leb_spec 16 (PyLong_DigitValue d)) as [|Hdt]; [done|].
      destruct (fromhex_loop s) as [k'|] eqn:Hs; [|done].
      intros [= <-]. destruct (IH1 k' eq_refl) as [Hlen Hall].
      assert (is_hexdigit c = true) as Hxc
        by (rewrite hexdigit_digit_value; by apply Z.ltb_lt).
      assert (is_hexdigit d = true) as Hxd
        by (rewrite hexdigit_digit_value; by apply Z.ltb_lt).
      cbn [String.length string_count string_forall length].
      rewrite Hc, (hexdigit_not_space d Hxd), Hxc, Hxd, Hall, Hlen.
      split; [lia|done].
Qed.

Lemma string_forall_no_space (s : string) :
  string_count Py_ISSPACE s = 0%nat →
  string_forall (fun c => is_hexdigit c || Py_ISSPACE c) s = true →
  string_forall is_hexdigit s = true.
Proof.
  induction s as [|c s IH]; [done|]. cbn [string_count string_forall].
  destruct (Py_ISSPACE c); [discriminate|].
  rewrite orb_false_r. intros Hn [Hc Hs]%andb_true_iff.
  by rewrite Hc, IH.
Qed.

(** X1: the key that an accepted key string decodes to has at most 32 bytes,
    and exactly 32 when, and only when, the 64 characters are all
    hexadecimal digits. *)
Theorem accepted_key_length (key_hex : string) (key : bytes) :
  String.length key_hex = 64%nat →
  fromhex key_hex = Some key →
  (length key ≤ 32)%nat
  ∧ (length key = 32%nat ↔ string_forall is_hexdigit key_hex = true).
Proof.
  intros Hlen Hkey.
  assert (fromhex_loop key_hex = Some key) as Hloop
    by (unfold fromhex in Hkey; by destruct (PyUnicode_IS_ASCII key_hex)).
  destruct (fromhex_loop_length key_hex key Hloop) as [Hsum Hall].
  split; [lia|]. split.
  - intros Hk. apply string_forall_no_space; [lia|done].
  - intros Hhex. destruct (hex_key_accepted key_hex Hlen Hhex) as (key' & Hkey' & _ & Hk).
    congruence.
Qed.

Lemma accepted_key_length_witness :
  (length (repeat x00 32) ≤ 32)%nat
  ∧ (length (repeat x00 32) = 32%nat ↔ string_forall is_hexdigit zero_key_hex = true).
Proof.
  apply (accepted_key_length zero_key_hex (repeat x00 32)); reflexivity.
Defined.

(** X2: a 64-character key string containing a character that is neither
    a hexadecimal digit nor ASCII whitespace is refused with the encoding
    error, after the decoding attempt and before anything else. *)
Theorem sign_rejects_foreign_character (w : world) (input_path key_hex : string)
    (output_path : option string) :
  String.length key_hex = 64%nat →
  string_exists (fun c => negb (is_hexdigit c) && negb (Py_ISSPACE c)) key_hex = true →
  sign_firmware input_path key_hex output_path w
  = (Raise InvalidKeyEncoding, add_events [EvFromhex] w).
Proof.
  intros Hlen Hbad. apply run_bad_encoding; [done|].
  unfold fromhex. rewrite (fromhex_loop_rejects key_hex Hbad).
  by destruct (PyUnicode_IS_ASCII key_hex).
Qed.

Lemma sign_rejects_foreign_character_witness :
  sign_firmware "fw.bin" bad_key_hex None demo_world
  = (Raise InvalidKeyEncoding, add_events [EvFromhex] demo_world).
Proof.
  apply (sign_rejects_foreign_character demo_world "fw.bin" bad_key_hex None); reflexivity.
Defined.

Example main_runs :
  fst (main demo_strerror "sign_firmware.py" [] demo_world) = Ok (Exited 1)
  ∧ fst (main demo_strerror "sign_firmware.py" ["fw.bin"] demo_world) = Ok (Exited 1)
  ∧ fst (main demo_strerror "sign_firmware.py" ["--generate-key"] demo_world) = Ok (Exited 0)
  ∧ fst (main demo_strerror "sign_firmware.py" ["fw.bin"; zero_key_hex] demo_world)
    = Ok Returned
  ∧ last (trace (snd (main demo_strerror "sign_firmware.py" ["nofw.bin"; zero_key_hex]
                        demo_world)))
    = Some (EvPrint "Error: [Errno 2] No such file or directory: 'nofw.bin'")
  ∧ last (trace (snd (main demo_strerror "sign_firmware.py" ["fw.bin"; "abc"] demo_world)))
    = Some (EvPrint "Error: Key must be 64 hex characters (32 bytes), got 3").
Proof. vm_compute. repeat split. Qed.

(** ** The default output path *)










(** ** What a run touches *)



(** ** Input and output failures *)

(** X5: with an accepted key and no input file the run raises the
    [OSError] of the input path and stops there: no file is changed, the
    HMAC is not called and nothing is printed, opened or written (also
    when the output path could not have been written either). *)
Theorem sign_missing_input (w : world) (input_path key_hex : string)
    (output_path : option string) (key : bytes) :
  String.length key_hex = 64%nat →
  fromhex key_hex = Some key →
  files w !! input_path = None →
  ∃ w',
    sign_firmware input_path key_hex output_path w = (Raise (OSError input_path), w') ∧
    files w' = files w ∧
    trace w' = trace w ++ [EvFromhex; EvRead input_path].
Proof.
  intros Hlen Hhex Hin. eexists.
  split; [by apply (run_missing_input _ _ _ _ key)|]. done.
Qed.

Lemma sign_missing_input_witness :
  ∃ w',
    sign_firmware "nofw.bin" zero_key_hex None demo_world = (Raise (OSError "nofw.bin"), w') ∧
    files w' = files demo_world ∧
    trace w' = trace demo_world ++ [EvFromhex; EvRead "nofw.bin"].
Proof.
  apply (sign_missing_input demo_world "nofw.bin" zero_key_hex None (repeat x00 32));
    reflexivity.
Defined.

(** X6: when the output path cannot be opened for writing the run raises
    the [OSError] of that path and no file is changed, the input included;
    by then the tag has been computed and the signature line printed. *)
Theorem sign_unwritable_output (w : world) (input_path key_hex : string)
    (output_path : option string) (key payload : bytes) :
  String.length key_hex = 64%nat →
  fromhex key_hex = Some key →
  files w !! input_path = Some payload →
  signed_path input_path output_path ∈ wdenied w →
  ∃ w',
    sign_firmware input_path key_hex output_path w
    = (Raise (OSError (signed_path input_path output_path)), w') ∧
    files w' = files w ∧
    EvHmac key payload (HMAC.digest key payload) ∈ trace w' ∧
    EvPrint ("Signature: " +:+ hex (HMAC.digest key payload)) ∈ trace w' ∧
    last (trace w') = Some (EvOpenW (signed_path input_path output_path)).
Proof.
  intros Hlen Hhex Hin Hout. eexists.
  split; [by apply (run_denied _ _ _ _ key payload)|].
  cbn [add_events files trace]. split; [reflexivity|].
  split; [|split].
  - apply elem_of_app. right. apply list_elem_of_In. cbn. tauto.
  - apply elem_of_app. right. apply list_elem_of_In. cbn. tauto.
  - rewrite last_app. reflexivity.
Qed.

Lemma sign_unwritable_output_witness :
  ∃ w',
    sign_firmware "build/app.img" zero_key_hex (Some "/etc/passwd") other_world
    = (Raise (OSError "/etc/passwd"), w') ∧
    files w' = files other_world.
Proof.
  destruct (sign_unwritable_output other_world "build/app.img" zero_key_hex
              (Some "/etc/passwd") (repeat x00 32) demo_payload)
    as (w' & Hrun & Hfiles & _).
  - reflexivity.
  - reflexivity.
  - reflexivity.
  - cbn. set_solver.
  - exists w'. split; [exact Hrun|exact Hfiles].
Defined.

(** ** Signing a signed file *)

(** X7: the script does not recognise a signed file: signing the output of
    a first run (in place or to a third path, with the same or another
    key) treats the whole envelope as firmware and appends a second tag,
    computed over the payload and the first tag; the file grows by 32
    bytes with every run. *)
Theorem sign_resign_appends (w : world) (input_path key1_hex key2_hex out1 out2 : string)
    (key1 key2 payload : bytes) :
  String.length key1_hex = 64%nat → fromhex key1_hex = Some key1 →
  String.length key2_hex = 64%nat → fromhex key2_hex = Some key2 →
  files w !! input_path = Some payload →
  out1 ∉ wdenied w → out2 ∉ wdenied w →
  ∃ w1 w2,
    let envelope := payload ++ HMAC.digest key1 payload in
    sign_firmware input_path key1_hex (Some out1) w = (Ok out1, w1) ∧
    sign_firmware out1 key2_hex (Some out2) w1 = (Ok out2, w2) ∧
    files w2 !! out2 = Some (envelope ++ HMAC.digest key2 envelope) ∧
    length (envelope ++ HMAC.digest key2 envelope) = (length payload + 64)%nat.
Proof.
  intros Hl1 Hk1 Hl2 Hk2 Hin Ho1 Ho2.
  pose proof (run_ok input_path key1_hex (Some out1) w key1 payload Hl1 Hk1 Hin Ho1)
    as H1. cbn zeta in H1. cbn [signed_path] in H1.
  set (w1 := World (<[out1 := payload ++ HMAC.digest key1 payload]> (files w))
               (wdenied w) (entropy w)
               (trace w ++
                [EvFromhex; EvRead input_path; EvPrint (firmware_size_line payload);
                 EvHmac key1 payload (HMAC.digest key1 payload);
                 EvPrint (signature_line (HMAC.digest key1 payload));
                 EvOpenW out1; EvWrite out1 payload;
                 EvWrite out1 (HMAC.digest key1 payload);
                 EvPrint (signed_line out1 payload (HMAC.digest key1 payload))])) in *.
  assert (files w1 !! out1 = Some (payload ++ HMAC.digest key1 payload)) as Hin2
    by apply lookup_insert_eq.
  pose proof (run_ok out1 key2_hex (Some out2) w1 key2
                (payload ++ HMAC.digest key1 payload) Hl2 Hk2 Hin2 Ho2) as H2.
  cbn zeta in H2. cbn [signed_path] in H2.
  eexists w1, _. cbn zeta. split; [exact H1|]. split; [exact H2|].
  cbn [files]. rewrite lookup_insert_eq. split; [reflexivity|].
  rewrite !length_app, !length_hmac. lia.
Qed.

Lemma sign_resign_appends_witness :
  ∃ w1 w2,
    sign_firmware "fw.bin" zero_key_hex (Some "fw.bin") demo_world = (Ok "fw.bin", w1) ∧
    sign_firmware "fw.bin" upper_key_hex (Some "fw.bin") w1 = (Ok "fw.bin", w2) ∧
    length <$> files w2 !! "fw.bin" = Some (length demo_payload + 64)%nat.
Proof.
  destruct (sign_resign_appends demo_world "fw.bin" zero_key_hex upper_key_hex
              "fw.bin" "fw.bin" (repeat x00 32)
              (SHA256.be64 0x0123456789abcdef ++ SHA256.be64 0x0123456789abcdef
               ++ SHA256.be64 0x0123456789abcdef ++ SHA256.be64 0x0123456789abcdef)
              demo_payload)
    as (w1 & w2 & H1 & H2 & Hf & Hlen);
    [reflexivity|reflexivity|reflexivity|reflexivity|reflexivity|
     apply demo_world_writable|apply demo_world_writable|].
  exists w1, w2. split; [exact H1|]. split; [exact H2|].
  rewrite Hf. cbn [fmap option_fmap option_map]. by rewrite Hlen.
Defined.

(** ** What the script prints *)

(** X8: the three lines of a successful run describe the file that was
    written: the firmware size is the file's length less the 32 bytes of
    the tag, the signature line shows 64 hexadecimal characters that
    decode to the last 32 bytes of the file, and the last line, printed
    after the writes, names the output path and the file's length. *)
Theorem sign_report_consistent (w w' : world) (input_path key_hex out : string)
    (output_path : option string) :
  sign_firmware input_path key_hex output_path w = (Ok out, w') →
  ∃ envelope sig_hex,
    files w' !! out = Some envelope ∧
    (32 ≤ length envelope)%nat ∧
    EvPrint ("Firmware size: " +:+ str_of_nat (length envelope - 32) +:+ " bytes")
      ∈ trace w' ∧
    EvPrint ("Signature: " +:+ sig_hex) ∈ trace w' ∧
    String.length sig_hex = 64%nat ∧
    fromhex sig_hex = Some (drop (length envelope - 32) envelope) ∧
    last (trace w')
    = Some (EvPrint ("Signed firmware: " +:+ out +:+ " (" +:+
                     str_of_nat (length envelope) +:+ " bytes)")).
Proof.
  intros Hrun.
  destruct (run_cases input_path key_hex output_path w)
    as [[_ E]|[(_ & _ & E)|(key & _ & Hk & [[_ E]|(fw & Hfw & [[_ E]|[_ E]])])]];
    first [rewrite E in Hrun | rewrite Hrun in E]; try discriminate.
  injection Hrun as <- <-. cbn [files trace].
  exists (fw ++ HMAC.digest key fw), (hex (HMAC.digest key fw)).
  rewrite length_app, length_hmac.
  replace (length fw + 32 - 32)%nat with (length fw) by lia.
  split; [apply lookup_insert_eq|]. split; [lia|].
  split; [apply elem_of_app; right; apply list_elem_of_In; cbn; tauto|].
  split; [apply elem_of_app; right; apply list_elem_of_In; cbn; tauto|].
  split; [by rewrite length_hex, length_hmac|].
  split; [by rewrite fromhex_hex, drop_app_length|].
  rewrite last_app. cbn [last]. unfold signed_line. by rewrite length_hmac.
Qed.

Lemma sign_report_consistent_witness :
  ∃ envelope sig_hex,
    files (snd (sign_firmware "fw.bin" zero_key_hex None demo_world)) !! "fw_signed.bin"
    = Some envelope ∧
    EvPrint ("Signature: " +:+ sig_hex)
      ∈ trace (snd (sign_firmware "fw.bin" zero_key_hex None demo_world)) ∧
    fromhex sig_hex = Some (drop (length envelope - 32) envelope).
Proof.
  destruct (sign_report_consistent demo_world
              (snd (sign_firmware "fw.bin" zero_key_hex None demo_world))
              "fw.bin" zero_key_hex "fw_signed.bin" None)
    as (envelope & sig_hex & Hf & _ & _ & Hsig & _ & Hdec & _).
  - vm_compute. reflexivity.
  - exists envelope, sig_hex. split; [exact Hf|]. split; [exact Hsig|exact Hdec].
Defined.

(** ** Successive keys *)

Lemma hex_inj (a b : bytes) : hex a = hex b → a = b.
Proof.
  intros H. assert (Some a = Some b) as E; [|by injection E].
  by rewrite <- (fromhex_hex a), <- (fromhex_hex b), H.
Qed.

(** X9: two calls of [generate_key] in a row, with 64 bytes of entropy at
    hand, take the first 32 bytes and then the next 32: the two keys are
    the encodings of these two blocks, they are equal only when the two
    blocks are equal, and no file is changed. *)
Theorem generate_key_twice (w : world) :
  (64 ≤ length (entropy w))%nat →
  ∃ w1 w2,
    let first := take 32 (entropy w) in
    let second := take 32 (drop 32 (entropy w)) in
    generate_key w = (Ok (hex first), w1) ∧
    generate_key w1 = (Ok (hex second), w2) ∧
    entropy w2 = drop 64 (entropy w) ∧
    files w2 = files w ∧
    (hex first = hex second ↔ first = second).
Proof.
  intros Hpool. eexists _, _. cbn zeta.
  rewrite generate_key_run.
  destruct (Nat.leb_spec 32 (length (entropy w))) as [_|?]; [|lia].
  split; [reflexivity|].
  rewrite generate_key_run. cbn [entropy files wdenied trace].
  rewrite length_drop.
  destruct (Nat.leb_spec 32 (length (entropy w) - 32)) as [_|?]; [|lia].
  split; [reflexivity|]. cbn [entropy files].
  split; [by rewrite drop_drop|]. split; [reflexivity|].
  split; [apply hex_inj|by intros ->].
Qed.

Lemma generate_key_twice_witness :
  ∃ w1 w2 k1 k2,
    generate_key (World ∅ ∅ (repeat x07 32 ++ repeat x09 32) []) = (Ok k1, w1) ∧
    generate_key w1 = (Ok k2, w2) ∧
    k1 ≠ k2 ∧ entropy w2 = [].
Proof.
  destruct (generate_key_twice (World ∅ ∅ (repeat x07 32 ++ repeat x09 32) []))
    as (w1 & w2 & H1 & H2 & He & _ & Hiff).
  - cbn. lia.
  - eexists w1, w2, _, _. split; [exact H1|]. split; [exact H2|].
    split; [|exact He]. intros E. apply Hiff in E. discriminate E.
Defined.

(** ** The command line *)

Lemma run_Ok_inv input_path key_hex output_path w out w' :
  sign_firmware input_path key_hex output_path w = (Ok out, w') →
  ∃ key payload,
    String.length key_hex = 64%nat ∧ fromhex key_hex = Some key ∧
    files w !! input_path = Some payload ∧
    out = signed_path input_path output_path ∧
    (out ∉ wdenied w) ∧
    files w' = <[out := payload ++ HMAC.digest key payload]> (files w).
Proof.
  intros Hrun.
  destruct (run_cases input_path key_hex output_path w)
    as [[_ E]|[(_ & _ & E)|(key & Hlen & Hk & [[_ E]|(fw & Hfw & [[_ E]|[Hout E]])])]];
    first [rewrite E in Hrun | rewrite Hrun in E]; try discriminate.
  injection Hrun as <- <-. by exists key, fw.
Qed.

Section MainRuns.
Variables (strerror : string → string) (prog : string) (w : world).

Lemma main_no_arguments :
  main strerror prog [] w
  = (Ok (Exited 1),
     add_events [EvPrint doc; EvPrint (nl +:+ "To generate a new key:");
                 EvPrint ("  python " +:+ prog +:+ " --generate-key")] w).
Proof.
  unfold main, print, sys_exit, log, ret, bind, add_events.
  cbn [length Nat.ltb Nat.leb nth files wdenied entropy trace].
  by rewrite <- !app_assoc.
Qed.

Lemma main_no_key (input_path : string) :
  input_path ≠ "--generate-key" →
  main strerror prog [input_path] w
  = (Ok (Exited 1), add_events [EvPrint "Error: Missing key argument"; EvPrint doc] w).
Proof.
  intros Hne%String.eqb_neq.
  unfold main. cbn [length Nat.ltb Nat.leb nth]. rewrite Hne.
  unfold print, sys_exit, log, ret, bind, add_events.
  cbn [files wdenied entropy trace]. by rewrite <- !app_assoc.
Qed.

Lemma main_generate_run (rest : list string) :
  main strerror prog ("--generate-key" :: rest) w
  = match generate_key w with
    | (Ok key, w') =>
        (Ok (Exited 0),
         add_events
           [EvPrint ("Generated signing key: " +:+ key);
            EvPrint (nl +:+ "Store this key securely. Set it on device via API or compile it in.")]
           w')
    | (Raise e, w') => (Raise e, w')
    end.
Proof.
  unfold main. cbn [length Nat.ltb Nat.leb nth]. rewrite String.eqb_refl.
  unfold bind at 1. destruct (generate_key w) as [[key|e] w1]; [|reflexivity].
  unfold print, sys_exit, log, ret, bind, add_events.
  cbn [files wdenied entropy trace]. by rewrite <- !app_assoc.
Qed.

Lemma main_sign_run (input_path key_hex : string) (rest : list string) :
  input_path ≠ "--generate-key" →
  main strerror prog (input_path :: key_hex :: rest) w
  = match sign_firmware input_path key_hex (head rest) w with
    | (Ok _, w') => (Ok Returned, w')
    | (Raise e, w') =>
        (Ok (Exited 1), add_events [EvPrint ("Error: " +:+ str_of_exn strerror e)] w')
    end.
Proof.
  intros Hne%String.eqb_neq.
  unfold main. cbn [length Nat.ltb Nat.leb nth]. rewrite Hne.
  assert ((if match length rest with 0%nat => false | S _ => true end
           then Some (nth 0 rest EmptyString) else None) = head rest) as ->
    by (by destruct rest).
  unfold try_except_Exception, bind at 1.
  destruct (sign_firmware input_path key_hex (head rest) w) as [[out|e] w1];
    reflexivity.
Qed.

End MainRuns.

(** X10: exit status 0 of a signing invocation means a signed file: when
    [main], not asked for a key, returns or exits with status 0, the
    arguments held an input path and a key string, the key was accepted,
    the input file existed, and the output path (the third argument, or
    the default) now holds the firmware followed by its tag. *)
Theorem main_exit_zero_signed (strerror : string → string) (prog : string)
    (args : list string) (w w' : world) (st : exit_status) :
  head args ≠ Some "--generate-key" →
  main strerror prog args w = (Ok st, w') →
  exit_code st = 0%Z →
  ∃ input_path key_hex rest key payload,
    args = input_path :: key_hex :: rest ∧
    String.length key_hex = 64%nat ∧
    fromhex key_hex = Some key ∧
    files w !! input_path = Some payload ∧
    files w' !! signed_path input_path (head rest)
    = Some (payload ++ HMAC.digest key payload).
Proof.
  intros Hgk Hrun Hst.
  destruct args as [|input_path [|key_hex rest]].
  - rewrite main_no_arguments in Hrun. injection Hrun as <- _. discriminate Hst.
  - rewrite main_no_key in Hrun by (intros ->; by apply Hgk).
    injection Hrun as <- _. discriminate Hst.
  - rewrite main_sign_run in Hrun by (intros ->; by apply Hgk).
    destruct (sign_firmware input_path key_hex (head rest) w) as [[out|e] w1] eqn:Hs.
    + injection Hrun as _ <-.
      destruct (run_Ok_inv _ _ _ _ _ _ Hs) as (key & payload & Hl & Hk & Hin & -> & _ & Hf).
      exists input_path, key_hex, rest, key, payload.
      repeat split; try done. rewrite Hf. apply lookup_insert_eq.
    + injection Hrun as <- _. discriminate Hst.
Qed.

Lemma main_exit_zero_signed_witness :
  ∃ input_path key_hex rest key payload,
    ["fw.bin"; zero_key_hex; "out.bin"; "ignored"] = input_path :: key_hex :: rest ∧
    String.length key_hex = 64%nat ∧
    fromhex key_hex = Some key ∧
    files demo_world !! input_path = Some payload ∧
    files (snd (main demo_strerror "sign_firmware.py"
                  ["fw.bin"; zero_key_hex; "out.bin"; "ignored"] demo_world))
      !! signed_path input_path (head rest)
    = Some (payload ++ HMAC.digest key payload).
Proof.
  apply (main_exit_zero_signed demo_strerror "sign_firmware.py"
           ["fw.bin"; zero_key_hex; "out.bin"; "ignored"] demo_world
           (snd (main demo_strerror "sign_firmware.py"
                   ["fw.bin"; zero_key_hex; "out.bin"; "ignored"] demo_world))
           Returned).
  - discriminate.
  - vm_compute. reflexivity.
  - reflexivity.
Defined.

(** X11: [main] lets no exception of [sign_firmware] escape: whatever the
    arguments and the world, it returns or exits with status 0 or 1; the
    one exception that can leave it is the failure of [os.urandom], when a
    key is asked for and the entropy source cannot deliver 32 bytes. *)
Theorem main_escaping_exception (strerror : string → string) (prog : string)
    (args : list string) (w : world) :
  match fst (main strerror prog args w) with
  | Ok st => exit_code st = 0%Z ∨ exit_code st = 1%Z
  | Raise e =>
      e = NotImplementedError ∧ head args = Some "--generate-key"
      ∧ (length (entropy w) < 32)%nat
  end.
Proof.
  destruct args as [|a rest].
  - rewrite main_no_arguments. by right.
  - destruct (decide (a = "--generate-key")) as [->|Ha].
    + rewrite main_generate_run, generate_key_run.
      destruct (Nat.leb_spec 32 (length (entropy w))); cbn; [by left|done].
    + destruct rest as [|key_hex rest].
      * rewrite main_no_key by done. by right.
      * rewrite main_sign_run by done.
        destruct (sign_firmware a key_hex (head rest) w) as [[out|e] w1]; cbn;
          [by left|by right].
Qed.

(** X12: an invalid key on the command line ends [main] with status 1 and
    the key error as its last line, [Error: ] in front: the length message
    when the key string has not 64 characters, the hexadecimal message
    otherwise. No file is changed, and no file has been opened for writing
    nor any HMAC computed, whether or not the input file exists. *)
Theorem main_reports_key_error (strerror : string → string) (prog input_path key_hex : string)
    (rest : list string) (w : world) :
  input_path ≠ "--generate-key" →
  String.length key_hex ≠ 64%nat ∨ fromhex key_hex = None →
  ∃ w' evs,
    let msg :=
      if (String.length key_hex =? 64)%nat then "Key must be valid hexadecimal"
      else "Key must be 64 hex characters (32 bytes), got "
           +:+ str_of_nat (String.length key_hex) in
    main strerror prog (input_path :: key_hex :: rest) w = (Ok (Exited 1), w') ∧
    files w' = files w ∧
    trace w' = trace w ++ evs ++ [EvPrint ("Error: " +:+ msg)] ∧
    forallb (fun ev => negb (is_write_event ev) && negb (is_crypto_event ev)) evs = true.
Proof.
  intros Hgk Hbad. rewrite main_sign_run by done. cbn zeta.
  destruct (Nat.eqb_spec (String.length key_hex) 64) as [Hlen|Hlen].
  - destruct Hbad as [?|Hhex]; [done|].
    rewrite run_bad_encoding by done.
    eexists _, [EvFromhex]. split; [reflexivity|].
    cbn [add_events files trace]. split; [reflexivity|].
    split; [by rewrite <- !app_assoc|reflexivity].
  - rewrite run_bad_length by done.
    eexists _, []. split; [reflexivity|].
    cbn [add_events files trace]. done.
Qed.

Lemma main_reports_key_error_witness :
  ∃ w' evs,
    main demo_strerror "sign_firmware.py" ["fw.bin"; padded_key_hex +:+ "g"] demo_world
    = (Ok (Exited 1), w') ∧
    files w' = files demo_world ∧
    trace w'
    = trace demo_world ++ evs
      ++ [EvPrint "Error: Key must be 64 hex characters (32 bytes), got 65"].
Proof.
  destruct (main_reports_key_error demo_strerror "sign_firmware.py" "fw.bin"
              (padded_key_hex +:+ "g") [] demo_world)
    as (w' & evs & Hrun & Hf & Ht & _).
  - discriminate.
  - left. discriminate.
  - exists w', evs. split; [exact Hrun|]. split; [exact Hf|exact Ht].
Defined.

(** X13: with an accepted key, a missing input file or an output path that
    cannot be opened ends [main] with status 1; its last line is [Error: ]
    followed by the text of that [OSError], and no file is changed. *)
Theorem main_reports_io_error (strerror : string → string) (prog input_path key_hex : string)
    (rest : list string) (key : bytes) (w : world) :
  input_path ≠ "--generate-key" →
  String.length key_hex = 64%nat →
  fromhex key_hex = Some key →
  files w !! input_path = None ∨ signed_path input_path (head rest) ∈ wdenied w →
  ∃ w',
    let path :=
      match files w !! input_path with
      | None => input_path
      | Some _ => signed_path input_path (head rest)
      end in
    main strerror prog (input_path :: key_hex :: rest) w = (Ok (Exited 1), w') ∧
    files w' = files w ∧
    last (trace w') = Some (EvPrint ("Error: " +:+ strerror path)).
Proof.
  intros Hgk Hlen Hhex Hio. rewrite main_sign_run by done. cbn zeta.
  destruct (files w !! input_path) as [payload|] eqn:Hin.
  - destruct Hio as [?|Hout]; [done|].
    rewrite (run_denied _ _ _ _ key payload) by done.
    eexists. split; [reflexivity|]. cbn [add_events files trace].
    split; [reflexivity|]. by rewrite last_app.
  - rewrite (run_missing_input _ _ _ _ key) by done.
    eexists. split; [reflexivity|]. cbn [add_events files trace].
    split; [reflexivity|]. by rewrite last_app.
Qed.

Lemma main_reports_io_error_witness :
  ∃ w',
    main demo_strerror "sign_firmware.py" ["nofw.bin"; zero_key_hex] demo_world
    = (Ok (Exited 1), w') ∧
    files w' = files demo_world ∧
    last (trace w')
    = Some (EvPrint "Error: [Errno 2] No such file or directory: 'nofw.bin'").
Proof.
  apply (main_reports_io_error demo_strerror "sign_firmware.py" "nofw.bin" zero_key_hex []
           (repeat x00 32) demo_world).
  - discriminate.
  - reflexivity.
  - reflexivity.
  - left. reflexivity.
Defined.



(** X15: the two commands work together: the key printed by a
    [--generate-key] run, given to a following signing run, is accepted,
    and that run returns with the output file holding the firmware and its
    tag under the 32 bytes the first run drew. *)
Theorem main_generate_then_sign (strerror : string → string) (prog input_path : string)
    (rest : list string) (payload : bytes) (w : world) :
  (32 ≤ length (entropy w))%nat →
  input_path ≠ "--generate-key" →
  files w !! input_path = Some payload →
  signed_path input_path (head rest) ∉ wdenied w →
  ∃ key_hex w1 w2,
    main strerror prog ["--generate-key"] w = (Ok (Exited 0), w1) ∧
    EvPrint ("Generated signing key: " +:+ key_hex) ∈ trace w1 ∧
    main strerror prog (input_path :: key_hex :: rest) w1 = (Ok Returned, w2) ∧
    files w2 !! signed_path input_path (head rest)
    = Some (payload ++ HMAC.digest (take 32 (entropy w)) payload).
Proof.
  intros Hpool Hgk Hin Hout.
  exists (hex (take 32 (entropy w))). eexists _, _.
  rewrite main_generate_run, generate_key_run.
  destruct (Nat.leb_spec 32 (length (entropy w))) as [_|?]; [|lia].
  split; [reflexivity|]. cbn [add_events files wdenied entropy trace].
  split; [apply elem_of_app; right; apply list_elem_of_In; cbn; tauto|].
  rewrite main_sign_run by done.
  rewrite (run_ok _ _ _ _ (take 32 (entropy w)) payload);
    [|rewrite length_hex, length_take; lia|apply fromhex_hex|done|done].
  split; [reflexivity|]. cbn [files]. apply lookup_insert_eq.
Qed.

Lemma main_generate_then_sign_witness :
  ∃ key_hex w1 w2,
    main demo_strerror "sign_firmware.py" ["--generate-key"] demo_world
    = (Ok (Exited 0), w1) ∧
    EvPrint ("Generated signing key: " +:+ key_hex) ∈ trace w1 ∧
    main demo_strerror "sign_firmware.py" ("fw.bin" :: key_hex :: []) w1 = (Ok Returned, w2) ∧
    files w2 !! signed_path "fw.bin" (head [])
    = Some (demo_payload ++ HMAC.digest (take 32 (entropy demo_world)) demo_payload).
Proof.
  apply (main_generate_then_sign demo_strerror "sign_firmware.py" "fw.bin" []
           demo_payload demo_world).
  - cbn. lia.
  - discriminate.
  - reflexivity.
  - apply demo_world_writable.
Defined.

(** X16: without a key argument nothing is signed: with no argument at
    all, or with an input path only, [main] exits with status 1 having
    done nothing but print (the usage text among it); the input file is
    not read and no file is changed. *)
Theorem main_missing_arguments (strerror : string → string) (prog : string)
    (args : list string) (w : world) :
  (length args < 2)%nat →
  head args ≠ Some "--generate-key" →
  ∃ w' evs,
    main strerror prog args w = (Ok (Exited 1), w') ∧
    files w' = files w ∧
    entropy w' = entropy w ∧
    trace w' = trace w ++ evs ∧
    forallb is_print_event evs = true ∧
    EvPrint doc ∈ evs.
Proof.
  intros Hlen Hgk. destruct args as [|a [|b rest]]; [| |cbn in Hlen; lia].
  - rewrite main_no_arguments. eexists _, _. split; [reflexivity|].
    cbn [add_events files entropy trace]. repeat split.
    apply list_elem_of_In. cbn. tauto.
  - rewrite main_no_key by (intros ->; by apply Hgk). eexists _, _.
    split; [reflexivity|]. cbn [add_events files entropy trace]. repeat split.
    apply list_elem_of_In. cbn. tauto.
Qed.

Lemma main_missing_arguments_witness :
  ∃ w' evs,
    main demo_strerror "sign_firmware.py" ["fw.bin"] demo_world = (Ok (Exited 1), w') ∧
    files w' = files demo_world ∧
    entropy w' = entropy demo_world ∧
    trace w' = trace demo_world ++ evs ∧
    forallb is_print_event evs = true ∧
    EvPrint doc ∈ evs.
Proof.
  apply (main_missing_arguments demo_strerror "sign_firmware.py" ["fw.bin"] demo_world).
  - cbn. lia.
  - discriminate.
Defined.
